(** * tlk_events: a verification development

    A shallow embedding of the events service (packages [utils], [models],
    [repository] and [service]) together with the parts of the Go standard
    library, of [github.com/google/uuid] and of SQLite that the service's
    behaviour depends on, and the proofs of the properties stated for it.

    Conventions.  A Go [string] is a byte sequence: it is a [string] of
    [ascii] bytes here and [len] is its byte count.  A Go [int] is a [Z]
    (no value in this program gets near the 64-bit range).  A Go function
    returning [(T, error)] returns a pair [T * option E] when a caller
    discards the error, and a [result] otherwise. *)

From Stdlib Require Import ZArith List String Ascii Bool Lia Sorted Permutation.
Import ListNotations.
Open Scope string_scope.
Open Scope Z_scope.

Set Warnings "-register-all".

(** ** Results *)

Inductive result (A E : Type) : Type :=
| Ok (a : A)
| Err (e : E).
Arguments Ok {A E} a.
Arguments Err {A E} e.

Definition bind {A B E} (r : result A E) (k : A -> result B E) : result B E :=
  match r with
  | Ok a => k a
  | Err e => Err e
  end.

Notation "'do' x <- r ; k" := (bind r (fun x => k))
  (at level 10, x pattern, r at level 100, k at level 200).

(** ** Go strings *)

Module GoString.

Definition len (s : string) : Z := Z.of_nat (String.length s).

(** [s[n:]] *)
Fixpoint drop (n : nat) (s : string) : string :=
  match n, s with
  | O, _ => s
  | S n', String _ s' => drop n' s'
  | S _, EmptyString => EmptyString
  end.

(** [s[:n]] *)
Fixpoint take (n : nat) (s : string) : string :=
  match n, s with
  | O, _ => EmptyString
  | S n', String c s' => String c (take n' s')
  | S _, EmptyString => EmptyString
  end.

(** The value of a byte. *)
Definition code (c : ascii) : Z := Z.of_N (N_of_ascii c).

Definition byte_of (z : Z) : ascii := ascii_of_N (Z.to_N z).

Definition isDigitByte (c : ascii) : bool :=
  (code "0" <=? code c) && (code c <=? code "9").

(** [s[i] - '0'] *)
Definition digitAt (s : string) (i : nat) : Z :=
  match String.get i s with
  | Some c => code c - code "0"
  | None => 0
  end.

Definition byteIs (s : string) (i : nat) (c : ascii) : bool :=
  match String.get i s with
  | Some d => Ascii.eqb d c
  | None => false
  end.

(** [strings.HasSuffix] and [strings.TrimSuffix] *)
Definition HasSuffix (s suffix : string) : bool :=
  (String.length suffix <=? String.length s)%nat
  && String.eqb (drop (String.length s - String.length suffix) s) suffix.

Definition TrimSuffix (s suffix : string) : string :=
  if HasSuffix s suffix
  then take (String.length s - String.length suffix) s
  else s.

End GoString.
Import GoString.

(** ** Package [time] of the Go standard library

    The service calls [time.Parse] with six layouts, [Time.Format] with
    [time.RFC3339], [Time.Before], [Time.IsZero] and, through
    [encoding/json], [Time.MarshalJSON].  The model follows the library's
    [format.go] for exactly these uses.

    A [Time] is represented by what [Format] reads from it: the calendar
    date and clock in the time's own zone, the nanosecond and the zone's
    offset east of UTC in seconds.  The instant it denotes is [absSec]
    together with [nsec]. *)

Module time.

Record Time : Type := mkTime {
  year : Z;
  month : Z;
  day : Z;
  hour : Z;
  minute : Z;
  second : Z;
  nsec : Z;
  offset : Z
}.

(** [time.Time{}]: January 1, year 1, 00:00:00 UTC. *)
Definition zero : Time := mkTime 1 1 1 0 0 0 0 0.

Definition isLeap (y : Z) : bool :=
  (y mod 4 =? 0) && (negb (y mod 100 =? 0) || (y mod 400 =? 0)).

Definition daysIn (m y : Z) : Z :=
  if (m =? 2) && isLeap y then 29
  else nth (Z.to_nat m) [0; 31; 28; 31; 30; 31; 30; 31; 31; 30; 31; 30; 31] 0.

(** Days of the year before the first of month [m]. *)
Definition daysBefore (m y : Z) : Z :=
  nth (Z.to_nat m) [0; 0; 31; 59; 90; 120; 151; 181; 212; 243; 273; 304; 334] 0
  + (if (2 <? m) && isLeap y then 1 else 0).

(** Days from January 1 of year 1 to January 1 of year [y]. *)
Definition daysSinceYear1 (y : Z) : Z :=
  let p := y - 1 in 365 * p + p / 4 - p / 100 + p / 400.

(** Seconds from January 1, year 1, 00:00:00 UTC to the instant of [t]. *)
Definition absSec (t : Time) : Z :=
  (daysSinceYear1 (year t) + daysBefore (month t) (year t) + (day t - 1)) * 86400
  + hour t * 3600 + minute t * 60 + second t - offset t.

Definition Before (t u : Time) : bool :=
  (absSec t <? absSec u) || ((absSec t =? absSec u) && (nsec t <? nsec u)).

Definition Equal (t u : Time) : bool :=
  (absSec t =? absSec u) && (nsec t =? nsec u).

Definition IsZero (t : Time) : bool :=
  (absSec t =? 0) && (nsec t =? 0).

(** *** Errors of [Parse] *)

Inductive ParseError : Type :=
| errBad
| errOutOfRange (what : string)
| errExtraText.

(** *** Scanning helpers of [format.go] *)

Definition isDigit (s : string) (i : nat) : bool :=
  match String.get i s with
  | Some c => isDigitByte c
  | None => false
  end.

Definition commaOrPeriod (c : ascii) : bool :=
  Ascii.eqb c "." || Ascii.eqb c ",".

Definition startsCommaOrPeriod (s : string) : bool :=
  match s with
  | String c _ => commaOrPeriod c
  | EmptyString => false
  end.

(** [getnum] reads a number of one or two digits; with [fixed] it must
    have two. *)
Definition getnum (s : string) (fixed : bool) : Z * string * option ParseError :=
  if negb (isDigit s 0) then (0, s, Some errBad)
  else if negb (isDigit s 1) then
    if fixed then (0, s, Some errBad)
    else (digitAt s 0, drop 1 s, None)
  else (digitAt s 0 * 10 + digitAt s 1, drop 2 s, None).

Fixpoint cutspace (s : string) : string :=
  match s with
  | String " " s' => cutspace s'
  | _ => s
  end.

(** [skip] removes [prefix] from [value]; a run of spaces in the prefix
    stands for a run of spaces, of any length, in the value.  Every turn of
    the loop shortens the prefix, whose length is the fuel. *)
Fixpoint skip_loop (fuel : nat) (value prefix : string) : result string ParseError :=
  match prefix with
  | EmptyString => Ok value
  | String p prefix' =>
      match fuel with
      | O => Err errBad
      | S fuel' =>
          if Ascii.eqb p " " then
            match value with
            | String v _ =>
                if Ascii.eqb v " "
                then skip_loop fuel' (cutspace value) (cutspace prefix)
                else Err errBad
            | EmptyString => skip_loop fuel' (cutspace value) (cutspace prefix)
            end
          else
            match value with
            | String v value' =>
                if Ascii.eqb v p then skip_loop fuel' value' prefix' else Err errBad
            | EmptyString => Err errBad
            end
      end
  end.

Definition skip (value prefix : string) : result string ParseError :=
  skip_loop (String.length prefix) value prefix.

(** [leadingInt] consumes the leading [0-9]* of [s]. *)
Fixpoint leadingInt_loop (x : Z) (s : string) : result (Z * string) ParseError :=
  match s with
  | String c s' =>
      if isDigitByte c then
        if 2 ^ 63 / 10 <? x then Err errBad
        else
          let x' := x * 10 + (code c - code "0") in
          if 2 ^ 63 <? x' then Err errBad else leadingInt_loop x' s'
      else Ok (x, s)
  | EmptyString => Ok (x, s)
  end.

Definition leadingInt (s : string) : result (Z * string) ParseError :=
  leadingInt_loop 0 s.

(** [atoi] accepts a sign and then needs digits up to the end. *)
Definition atoi (s : string) : result Z ParseError :=
  let neg := byteIs s 0 "-" in
  let s' := if byteIs s 0 "-" || byteIs s 0 "+" then drop 1 s else s in
  match leadingInt s' with
  | Ok (q, EmptyString) => Ok (if neg then - q else q)
  | _ => Err errBad
  end.

(** [parseNanoseconds value nbytes]: [value[0]] is the separator and
    [value[1:nbytes]] the digits.  It returns [ns], [rangeErrString] and
    [err]. *)
Definition parseNanoseconds (value : string) (nbytes : nat)
  : Z * option string * option ParseError :=
  if negb (startsCommaOrPeriod value) then (0, None, Some errBad)
  else
    let nbytes' := if (10 <? nbytes)%nat then 10%nat else nbytes in
    let value' := if (10 <? nbytes)%nat then take 10 value else value in
    match atoi (drop 1 (take nbytes' value')) with
    | Err e => (0, None, Some e)
    | Ok ns =>
        if ns <? 0 then (ns, Some "fractional second", None)
        else (ns * 10 ^ Z.of_nat (10 - nbytes'), None, None)
    end.

(** The number of leading digits of [s], counted from index [n]: the
    loop [for ; n < len(value) && isDigit(value, n); n++]. *)
Fixpoint digitsFrom (s : string) : nat :=
  match s with
  | String c s' => if isDigitByte c then S (digitsFrom s') else O
  | EmptyString => O
  end.

(** *** Layouts

    [nextStdChunk] cuts a layout into literal text and reference-time
    elements.  A layout is kept in this cut form: the elements, each with the
    literal text in front of it, and the literal text after the last. *)

Inductive std : Type :=
| stdLongYear           (* 2006 *)
| stdZeroMonth          (* 01 *)
| stdZeroDay            (* 02 *)
| stdHour               (* 15 *)
| stdZeroMinute         (* 04 *)
| stdZeroSecond         (* 05 *)
| stdISO8601ColonTZ     (* Z07:00 *)
| stdNumColonTZ         (* -07:00 *)
| stdFracSecond0 (digits : nat)   (* .000, the digits are required *)
| stdFracSecond9 (digits : nat).  (* .999, the digits are optional *)

Record Layout : Type := mkLayout {
  text : string;
  chunks : list (string * std);
  suffix : string
}.

Definition dateTime (sep : string) : list (string * std) :=
  [("", stdLongYear); ("-", stdZeroMonth); ("-", stdZeroDay);
   (sep, stdHour); (":", stdZeroMinute); (":", stdZeroSecond)].

Definition RFC3339 : Layout :=
  mkLayout "2006-01-02T15:04:05Z07:00"
           (dateTime "T" ++ [("", stdISO8601ColonTZ)]) "".

Definition RFC3339Nano : Layout :=
  mkLayout "2006-01-02T15:04:05.999999999Z07:00"
           (dateTime "T" ++ [("", stdFracSecond9 9); ("", stdISO8601ColonTZ)]) "".

Definition isFrac (s : option std) : bool :=
  match s with
  | Some (stdFracSecond0 _) | Some (stdFracSecond9 _) => true
  | _ => false
  end.

(** *** The locals of [parse] *)

Record fields : Type := mkFields {
  p_year : Z;
  p_month : Z;
  p_day : Z;
  p_hour : Z;
  p_min : Z;
  p_sec : Z;
  p_nsec : Z;
  p_utc : bool;          (* z = UTC *)
  p_zoneOffset : Z
}.

Definition fields0 : fields := mkFields 0 (-1) (-1) 0 0 0 0 false (-1).

Definition set_year (f : fields) (v : Z) : fields :=
  mkFields v (p_month f) (p_day f) (p_hour f) (p_min f) (p_sec f) (p_nsec f) (p_utc f) (p_zoneOffset f).
Definition set_month (f : fields) (v : Z) : fields :=
  mkFields (p_year f) v (p_day f) (p_hour f) (p_min f) (p_sec f) (p_nsec f) (p_utc f) (p_zoneOffset f).
Definition set_day (f : fields) (v : Z) : fields :=
  mkFields (p_year f) (p_month f) v (p_hour f) (p_min f) (p_sec f) (p_nsec f) (p_utc f) (p_zoneOffset f).
Definition set_hour (f : fields) (v : Z) : fields :=
  mkFields (p_year f) (p_month f) (p_day f) v (p_min f) (p_sec f) (p_nsec f) (p_utc f) (p_zoneOffset f).
Definition set_min (f : fields) (v : Z) : fields :=
  mkFields (p_year f) (p_month f) (p_day f) (p_hour f) v (p_sec f) (p_nsec f) (p_utc f) (p_zoneOffset f).
Definition set_sec (f : fields) (v : Z) : fields :=
  mkFields (p_year f) (p_month f) (p_day f) (p_hour f) (p_min f) v (p_nsec f) (p_utc f) (p_zoneOffset f).
Definition set_nsec (f : fields) (v : Z) : fields :=
  mkFields (p_year f) (p_month f) (p_day f) (p_hour f) (p_min f) (p_sec f) v (p_utc f) (p_zoneOffset f).
Definition set_utc (f : fields) : fields :=
  mkFields (p_year f) (p_month f) (p_day f) (p_hour f) (p_min f) (p_sec f) (p_nsec f) true (p_zoneOffset f).
Definition set_zoneOffset (f : fields) (v : Z) : fields :=
  mkFields (p_year f) (p_month f) (p_day f) (p_hour f) (p_min f) (p_sec f) (p_nsec f) (p_utc f) v.

(** What one case of the [switch] of [parse] leaves: the locals, the rest
    of the value, [rangeErrString] and [err].  A range error is reported
    before [err]. *)
Definition finish (f : fields) (value : string) (rangeErr : option string)
           (err : option ParseError) : result (fields * string) ParseError :=
  match rangeErr, err with
  | Some what, _ => Err (errOutOfRange what)
  | None, Some e => Err e
  | None, None => Ok (f, value)
  end.

(** A zone written as a sign, two digits of hours, a colon and two digits
    of minutes. *)
Definition parseOffset (f : fields) (value : string)
  : result (fields * string) ParseError :=
  if (String.length value <? 6)%nat then Err errBad
  else if negb (byteIs value 3 ":") then Err errBad
  else
    let sign := take 1 value in
    let hour := take 2 (drop 1 value) in
    let min := take 2 (drop 4 value) in
    let '(hr, _, err1) := getnum hour true in
    let '(mm, err2) :=
      match err1 with
      | None => let '(mm, _, e) := getnum min true in (mm, e)
      | Some e => (0, Some e)
      end in
    let '(ss, err3) :=
      match err2 with
      | None => let '(ss, _, e) := getnum "00" true in (ss, e)
      | Some e => (0, Some e)
      end in
    let rangeErr :=
      if 60 <? ss then Some "time zone offset second"
      else if 60 <? mm then Some "time zone offset minute"
      else if 24 <? hr then Some "time zone offset hour"
      else None in
    let zoneOffset := (hr * 60 + mm) * 60 + ss in
    let '(zoneOffset', err4) :=
      if byteIs sign 0 "+" then (zoneOffset, err3)
      else if byteIs sign 0 "-" then (- zoneOffset, err3)
      else (zoneOffset, Some errBad) in
    finish (set_zoneOffset f zoneOffset') (drop 6 value) rangeErr err4.

(** The zone of [Z07:00]: the letter [Z] for UTC, or an offset. *)
Definition parseZone (f : fields) (value : string)
  : result (fields * string) ParseError :=
  if byteIs value 0 "Z" then Ok (set_utc f, drop 1 value)
  else parseOffset f value.

(** One reference-time element; [next] is the element that follows in the
    layout, which the seconds look at. *)
Definition parseStd (s : std) (next : option std) (f : fields) (value : string)
  : result (fields * string) ParseError :=
  match s with
  | stdLongYear =>
      if (String.length value <? 4)%nat || negb (isDigit value 0) then Err errBad
      else do y <- atoi (take 4 value); Ok (set_year f y, drop 4 value)
  | stdZeroMonth =>
      let '(m, value', err) := getnum value true in
      finish (set_month f m) value'
             (match err with
              | None => if (m <=? 0) || (12 <? m) then Some "month" else None
              | Some _ => None
              end) err
  | stdZeroDay =>
      let '(d, value', err) := getnum value true in
      finish (set_day f d) value' None err
  | stdHour =>
      let '(h, value', err) := getnum value false in
      finish (set_hour f h) value'
             (if (h <? 0) || (24 <=? h) then Some "hour" else None) err
  | stdZeroMinute =>
      let '(m, value', err) := getnum value true in
      finish (set_min f m) value'
             (if (m <? 0) || (60 <=? m) then Some "minute" else None) err
  | stdZeroSecond =>
      let '(sec, value', err) := getnum value true in
      match err with
      | Some e => Err e
      | None =>
          if (sec <? 0) || (60 <=? sec) then Err (errOutOfRange "second")
          else
            let f' := set_sec f sec in
            (* a fractional second in the value that the layout does not ask for *)
            if (2 <=? String.length value')%nat && startsCommaOrPeriod value'
               && isDigit value' 1 && negb (isFrac next)
            then
              let n := S (digitsFrom (drop 1 value')) in
              let '(ns, rangeErr, err') := parseNanoseconds value' n in
              finish (set_nsec f' ns) (drop n value') rangeErr err'
            else Ok (f', value')
      end
  | stdISO8601ColonTZ => parseZone f value
  | stdNumColonTZ => parseOffset f value
  | stdFracSecond0 digits =>
      let ndigit := S digits in
      if (String.length value <? ndigit)%nat then Err errBad
      else
        let '(ns, rangeErr, err') := parseNanoseconds value ndigit in
        finish (set_nsec f ns) (drop ndigit value) rangeErr err'
  | stdFracSecond9 _ =>
      if (String.length value <? 2)%nat || negb (startsCommaOrPeriod value)
         || negb (isDigit value 1)
      then Ok (f, value)   (* fractional second omitted *)
      else
        let i := digitsFrom (drop 1 value) in
        let '(ns, rangeErr, err') := parseNanoseconds value (S i) in
        finish (set_nsec f ns) (drop (S i) value) rangeErr err'
  end.

Definition nextStd (l : list (string * std)) : option std :=
  match l with
  | (_, s) :: _ => Some s
  | [] => None
  end.

(** The loop of [parse]: the literal text, then the element. *)
Fixpoint parseChunks (l : list (string * std)) (tail : string) (f : fields)
         (value : string) : result fields ParseError :=
  match l with
  | [] =>
      do value' <- skip value tail;
      match value' with
      | EmptyString => Ok f
      | _ => Err errExtraText
      end
  | (prefix, s) :: l' =>
      do value' <- skip value prefix;
      do fv <- parseStd s (nextStd l') f value';
      parseChunks l' tail (fst fv) (snd fv)
  end.

(** After the loop: defaults, the day of the month, the zone. *)
Definition build (f : fields) : result Time ParseError :=
  let month := if p_month f <? 0 then 1 else p_month f in
  let day := if p_day f <? 0 then 1 else p_day f in
  if (day <? 1) || (daysIn month (p_year f) <? day) then Err (errOutOfRange "day")
  else
    let off :=
      if p_utc f then 0
      else if negb (p_zoneOffset f =? -1) then p_zoneOffset f
      else 0 in
    Ok (mkTime (p_year f) month day (p_hour f) (p_min f) (p_sec f) (p_nsec f) off).

Definition parse (layout : Layout) (value : string) : result Time ParseError :=
  do f <- parseChunks (chunks layout) (suffix layout) fields0 value;
  build f.

(** [time.Parse]: the zero [Time] comes with an error. *)
Definition Parse (layout : Layout) (value : string) : Time * option ParseError :=
  match parse layout value with
  | Ok t => (t, None)
  | Err e => (zero, Some e)
  end.

(** *** Formatting ([appendInt], [appendNano], [appendFormat]) *)

Definition utod (u : Z) : ascii := byte_of (code "0" + u).

(** The decimal digits of [u], the most significant first. *)
Fixpoint decimal_loop (fuel : nat) (u : Z) (acc : string) : string :=
  match fuel with
  | O => acc
  | S fuel' =>
      let acc' := String (utod (u mod 10)) acc in
      if u <? 10 then acc' else decimal_loop fuel' (u / 10) acc'
  end.

Definition decimal (u : Z) : string :=
  decimal_loop (S (Z.to_nat (Z.log2 u))) u "".

Fixpoint zeros (n : nat) : string :=
  match n with
  | O => ""
  | S n' => String "0" (zeros n')
  end.

(** [appendInt b x width]: the text appended to [b]. *)
Definition appendInt (x : Z) (width : nat) : string :=
  let u := Z.abs x in
  (if x <? 0 then "-" else "") ++
  (if (width =? 2)%nat && (u <? 100) then
     String (utod (u / 10)) (String (utod (u mod 10)) "")
   else if (width =? 4)%nat && (u <? 10000) then
     String (utod (u / 1000)) (String (utod (u / 100 mod 10))
       (String (utod (u / 10 mod 10)) (String (utod (u mod 10)) "")))
   else
     let ds := decimal u in
     zeros (width - String.length ds) ++ ds).

(** Removes the zeros at the end. *)
Fixpoint trimZeros (s : string) : string :=
  match s with
  | EmptyString => EmptyString
  | String c s' =>
      match trimZeros s' with
      | EmptyString => if Ascii.eqb c "0" then EmptyString else String c EmptyString
      | r => String c r
      end
  end.

(** [appendNano] for [stdFracSecond0] ([trim = false]) and
    [stdFracSecond9] ([trim = true]) with [n] digits and a period. *)
Definition appendNano (nanosec : Z) (trim : bool) (n : nat) : string :=
  if trim && ((n =? 0)%nat || (nanosec =? 0)) then ""
  else
    let ds := take n (appendInt nanosec 9) in
    if trim then
      match trimZeros ds with
      | EmptyString => ""
      | r => String "." r
      end
    else String "." ds.

Definition formatOffset (offset : Z) : string :=
  let zone := Z.quot offset 60 in
  (if zone <? 0 then "-" else "+") ++
  appendInt (Z.abs zone / 60) 2 ++ ":" ++ appendInt (Z.abs zone mod 60) 2.

Definition formatZone (offset : Z) : string :=
  if offset =? 0 then "Z" else formatOffset offset.

Definition formatStd (s : std) (t : Time) : string :=
  match s with
  | stdLongYear => appendInt (year t) 4
  | stdZeroMonth => appendInt (month t) 2
  | stdZeroDay => appendInt (day t) 2
  | stdHour => appendInt (hour t) 2
  | stdZeroMinute => appendInt (minute t) 2
  | stdZeroSecond => appendInt (second t) 2
  | stdISO8601ColonTZ => formatZone (offset t)
  | stdNumColonTZ => formatOffset (offset t)
  | stdFracSecond0 n => appendNano (nsec t) false n
  | stdFracSecond9 n => appendNano (nsec t) true n
  end.

Fixpoint formatChunks (l : list (string * std)) (t : Time) : string :=
  match l with
  | [] => ""
  | (prefix, s) :: l' => prefix ++ formatStd s t ++ formatChunks l' t
  end.

(** [t.Format(layout)] *)
Definition Format (layout : Layout) (t : Time) : string :=
  formatChunks (chunks layout) t ++ suffix layout.

(** [t.MarshalJSON()], without the quotes: [RFC3339Nano], refused when the
    year has not four digits or the zone's hour is above 23
    ([appendStrictRFC3339]). *)
Definition MarshalJSON (t : Time) : result string string :=
  let b := Format RFC3339Nano t in
  let n := String.length b in
  if negb (byteIs b 4 "-") then
    Err "Time.MarshalJSON: year outside of range [0,9999]"
  else if negb (byteIs b (n - 1) "Z")
          && (isDigit b (n - 6)
              || (24 <=? 10 * digitAt b (n - 5) + digitAt b (n - 4)))
  then Err "Time.MarshalJSON: timezone hour outside of range [0,23]"
  else Ok b.

(** [time.ParseInLocation(layout, value, time.UTC)]: a time without a
    zone in its text is in UTC, as with [Parse]. *)
Definition ParseInLocation (layout : Layout) (value : string)
  : Time * option ParseError :=
  Parse layout value.

End time.

(** ** Package [utils] (src/unnamed/part_001) *)

Module utils.
Import time.

(** The formats of [ParseTimestamp], in the order of the source. *)
Definition formats : list Layout :=
  [ RFC3339;
    RFC3339Nano;
    mkLayout "2006-01-02T15:04:05" (dateTime "T") "";
    mkLayout "2006-01-02 15:04:05" (dateTime " ") "";
    mkLayout "2006-01-02T15:04:05.000Z" (dateTime "T" ++ [("", stdFracSecond0 3)]) "Z";
    mkLayout "2006-01-02T15:04:05.000000Z" (dateTime "T" ++ [("", stdFracSecond0 6)]) "Z" ].

(** The [for _, format := range formats] loop with its [lastErr]. *)
Fixpoint tryFormats (formats : list Layout) (timestamp : string)
         (lastErr : option ParseError) : Time * option ParseError :=
  match formats with
  | [] => (time.zero, lastErr)
  | format :: rest =>
      let '(t, err) := time.Parse format timestamp in
      match err with
      | None => (t, None)
      | Some e => tryFormats rest timestamp (Some e)
      end
  end.

Definition ParseTimestamp (timestamp : string) : Time * option ParseError :=
  tryFormats formats timestamp None.

End utils.

(** ** Package [github.com/google/uuid] *)

Module uuid.

(** [type UUID [16]byte] *)
Record UUID : Type := mkUUID {
  b0 : ascii; b1 : ascii; b2 : ascii; b3 : ascii;
  b4 : ascii; b5 : ascii; b6 : ascii; b7 : ascii;
  b8 : ascii; b9 : ascii; b10 : ascii; b11 : ascii;
  b12 : ascii; b13 : ascii; b14 : ascii; b15 : ascii
}.

Definition Nil : UUID :=
  let z := zero in mkUUID z z z z z z z z z z z z z z z z.

Definition UUID_eqb (u v : UUID) : bool :=
  Ascii.eqb (b0 u) (b0 v) && Ascii.eqb (b1 u) (b1 v) && Ascii.eqb (b2 u) (b2 v)
  && Ascii.eqb (b3 u) (b3 v) && Ascii.eqb (b4 u) (b4 v) && Ascii.eqb (b5 u) (b5 v)
  && Ascii.eqb (b6 u) (b6 v) && Ascii.eqb (b7 u) (b7 v) && Ascii.eqb (b8 u) (b8 v)
  && Ascii.eqb (b9 u) (b9 v) && Ascii.eqb (b10 u) (b10 v) && Ascii.eqb (b11 u) (b11 v)
  && Ascii.eqb (b12 u) (b12 v) && Ascii.eqb (b13 u) (b13 v) && Ascii.eqb (b14 u) (b14 v)
  && Ascii.eqb (b15 u) (b15 v).

Definition hextable : string := "0123456789abcdef".

Definition hexdigit (n : Z) : ascii :=
  match String.get (Z.to_nat n) hextable with
  | Some c => c
  | None => "0"%char
  end.

(** [hex.Encode] of one byte. *)
Definition hex (b : ascii) : string :=
  String.String (hexdigit (code b / 16))
    (String.String (hexdigit (code b mod 16)) EmptyString).

(** The table [xvalues]: 255 for a byte that is no hexadecimal digit. *)
Definition xvalue (c : ascii) : Z :=
  let v := code c in
  if (code "0" <=? v) && (v <=? code "9") then v - code "0"
  else if (code "A" <=? v) && (v <=? code "F") then v - code "A" + 10
  else if (code "a" <=? v) && (v <=? code "f") then v - code "a" + 10
  else 255.

Definition xtob (x1 x2 : ascii) : ascii * bool :=
  let v1 := xvalue x1 in
  let v2 := xvalue x2 in
  (byte_of (Z.lor (Z.shiftl v1 4 mod 256) v2),
   negb (v1 =? 255) && negb (v2 =? 255)).

Inductive ParseError : Type :=
| invalidLength (n : nat)
| invalidPrefix
| invalidFormat.

Definition xtobAt (s : string) (i : nat) : option ascii :=
  match String.get i s, String.get (S i) s with
  | Some x1, Some x2 => let '(b, ok) := xtob x1 x2 in if ok then Some b else None
  | _, _ => None
  end.

Fixpoint xtobAll (s : string) (idx : list nat) : option (list ascii) :=
  match idx with
  | [] => Some []
  | i :: idx' =>
      match xtobAt s i, xtobAll s idx' with
      | Some b, Some bs => Some (b :: bs)
      | _, _ => None
      end
  end.

Definition ofBytes (bs : list ascii) : result UUID ParseError :=
  match bs with
  | [c0; c1; c2; c3; c4; c5; c6; c7; c8; c9; c10; c11; c12; c13; c14; c15] =>
      Ok (mkUUID c0 c1 c2 c3 c4 c5 c6 c7 c8 c9 c10 c11 c12 c13 c14 c15)
  | _ => Err invalidFormat
  end.

Definition lower (c : ascii) : ascii :=
  if (code "A" <=? code c) && (code c <=? code "Z") then byte_of (code c + 32) else c.

Fixpoint lowerString (s : string) : string :=
  match s with
  | EmptyString => EmptyString
  | String c s' => String (lower c) (lowerString s')
  end.

(** The dashed form, of 36 bytes or more. *)
Definition parseDashed (s : string) : result UUID ParseError :=
  if negb (byteIs s 8 "-") || negb (byteIs s 13 "-")
     || negb (byteIs s 18 "-") || negb (byteIs s 23 "-")
  then Err invalidFormat
  else
    match xtobAll s [0; 2; 4; 6; 9; 11; 14; 16; 19; 21; 24; 26; 28; 30; 32; 34]%nat with
    | Some bs => ofBytes bs
    | None => Err invalidFormat
    end.

(** [uuid.Parse] *)
Definition Parse (s : string) : result UUID ParseError :=
  let n := String.length s in
  if (n =? 36)%nat then parseDashed s
  else if (n =? 36 + 9)%nat then
    if String.eqb (lowerString (take 9 s)) "urn:uuid:" then parseDashed (drop 9 s)
    else Err invalidPrefix
  else if (n =? 36 + 2)%nat then parseDashed (drop 1 s)
  else if (n =? 32)%nat then
    match xtobAll s [0; 2; 4; 6; 8; 10; 12; 14; 16; 18; 20; 22; 24; 26; 28; 30]%nat with
    | Some bs => ofBytes bs
    | None => Err invalidFormat
    end
  else Err (invalidLength n).

(** [uuid.String()]: xxxxxxxx-xxxx-xxxx-xxxx-xxxxxxxxxxxx *)
Definition String (u : UUID) : string :=
  hex (b0 u) ++ hex (b1 u) ++ hex (b2 u) ++ hex (b3 u) ++ "-" ++
  hex (b4 u) ++ hex (b5 u) ++ "-" ++
  hex (b6 u) ++ hex (b7 u) ++ "-" ++
  hex (b8 u) ++ hex (b9 u) ++ "-" ++
  hex (b10 u) ++ hex (b11 u) ++ hex (b12 u) ++ hex (b13 u) ++ hex (b14 u) ++ hex (b15 u).

End uuid.

(** ** Package [models] (src/models/dto.go, src/models/model.go) *)

Module models.

Module CreateEventRequest.
Record T : Type := mk {
  Title : string;
  Description : option string;
  StartTime : string;
  EndTime : string
}.
End CreateEventRequest.

Record ValidationError : Type := mkValidationError { Message : string }.

Definition MaxTitleLength : Z := 100.

Definition TitleTooLong : ValidationError :=
  mkValidationError "title exceeds maximum length of 100 characters".
Definition TitleEmpty : ValidationError :=
  mkValidationError "title should not be empty".
Definition EndTimeBeforeStart : ValidationError :=
  mkValidationError "end_time should be after start_time".
Definition InvalidTimeFormat : ValidationError :=
  mkValidationError "invalid time format, expected ISO 8601 format".

Definition Error (m : ValidationError) : string := Message m.

(** [IsValid]: [None] is the [nil] error. *)
Definition IsValid (event : CreateEventRequest.T) : option ValidationError :=
  if String.eqb (CreateEventRequest.Title event) "" then Some TitleEmpty
  else if MaxTitleLength <? len (CreateEventRequest.Title event) then Some TitleTooLong
  else
    let '(startTime, err) := utils.ParseTimestamp (CreateEventRequest.StartTime event) in
    match err with
    | Some _ => Some InvalidTimeFormat
    | None =>
        let '(endTime, err) := utils.ParseTimestamp (CreateEventRequest.EndTime event) in
        match err with
        | Some _ => Some InvalidTimeFormat
        | None =>
            if time.Before endTime startTime then Some EndTimeBeforeStart
            else None
        end
    end.

Module Event.
Record T : Type := mk {
  ID : uuid.UUID;
  Title : string;
  Description : option string;
  StartTime : time.Time;
  EndTime : time.Time;
  CreatedAt : time.Time
}.
End Event.

End models.

(** ** The [events] table in SQLite

    The schema of [CreateTable] (src/repository/repository.go, lines 62-74):
    [id TEXT PRIMARY KEY], [title TEXT NOT NULL CHECK(length(title) <= 100)],
    a nullable [description] and three columns declared [DATETIME], which
    hold the texts the repository writes.  A table is the list of its rows in
    the order of their insertion. *)

Module sqlite.

Record Row : Type := mkRow {
  id : string;
  title : string;
  description : option string;
  start_time : string;
  end_time : string;
  created_at : string
}.

Definition Table : Type := list Row.

Inductive Error : Type :=
| ConstraintCheck        (* CHECK constraint failed *)
| ConstraintPrimaryKey.  (* UNIQUE constraint failed: events.id *)

Definition message (e : Error) : string :=
  match e with
  | ConstraintCheck => "CHECK constraint failed: length(title) <= 100"
  | ConstraintPrimaryKey => "UNIQUE constraint failed: events.id"
  end.

(** SQL [length(X)] of a text: its characters up to the first NUL, where
    the bytes 0x80-0xBF that follow a byte of 0xC0 or more are not counted.
    [lead] tells that such a byte came before. *)
Fixpoint length_from (lead : bool) (s : string) : Z :=
  match s with
  | EmptyString => 0
  | String c s' =>
      if lead && (Z.land (code c) 192 =? 128) then length_from true s'
      else if code c =? 0 then 0
      else 1 + length_from (192 <=? code c) s'
  end.

Definition length (s : string) : Z := length_from false s.

(** [CHECK(length(title) <= 100)] *)
Definition check (r : Row) : bool := length (title r) <=? 100.

Definition has_id (i : string) (r : Row) : bool := String.eqb (id r) i.

(** [INSERT INTO events (...) VALUES (...)] *)
Definition insert (t : Table) (r : Row) : result Table Error :=
  if negb (check r) then Err ConstraintCheck
  else if existsb (has_id (id r)) t then Err ConstraintPrimaryKey
  else Ok (t ++ [r])%list.

(** [SELECT ... FROM events WHERE id = ?], the first row. *)
Definition select_by_id (t : Table) (i : string) : option Row :=
  find (has_id i) t.

(** [ORDER BY start_time ASC]: the column holds text, which is compared
    byte by byte; rows with the same text keep their order. *)
Fixpoint place (r : Row) (l : list Row) : list Row :=
  match l with
  | [] => [r]
  | x :: l' =>
      if String.leb (start_time r) (start_time x) then r :: x :: l'
      else x :: place r l'
  end.

Fixpoint order_by_start_time (t : Table) : list Row :=
  match t with
  | [] => []
  | r :: t' => place r (order_by_start_time t')
  end.

Definition select_all (t : Table) : list Row := order_by_start_time t.

Definition count (i : string) (t : Table) : Z :=
  Z.of_nat (List.length (filter (has_id i) t)).

(** [UPDATE events SET title = ?, description = ?, start_time = ?,
    end_time = ? WHERE id = ?]: the new table and the rows affected. *)
Definition update (t : Table) (new : Row) : result (Table * Z) Error :=
  if count (id new) t =? 0 then Ok (t, 0)
  else if negb (check new) then Err ConstraintCheck
  else
    Ok (map (fun r =>
               if has_id (id new) r
               then mkRow (id r) (title new) (description new)
                          (start_time new) (end_time new) (created_at r)
               else r) t,
        count (id new) t).

(** [DELETE FROM events WHERE id = ?] *)
Definition delete (t : Table) (i : string) : Table * Z :=
  (filter (fun r => negb (has_id i r)) t, count i t).

End sqlite.

(** ** The driver [github.com/mattn/go-sqlite3] and [database/sql]

    A text in a column declared [DATETIME] does not reach [Scan] as it is
    stored.  The driver takes a final [Z] off, reads the text as a time with
    the first of its layouts that parses it, in UTC where the text names no
    zone, and takes the zero time when none does; [Scan] into a [*string] then
    writes that time with [time.RFC3339Nano]. *)

Module sqlite3.
Import time.

Definition date : list (string * std) :=
  [("", stdLongYear); ("-", stdZeroMonth); ("-", stdZeroDay)].

Definition dateMinute (sep : string) : list (string * std) :=
  date ++ [(sep, stdHour); (":", stdZeroMinute)].

Definition SQLiteTimestampFormats : list Layout :=
  [ mkLayout "2006-01-02 15:04:05.999999999-07:00"
             (dateTime " " ++ [("", stdFracSecond9 9); ("", stdNumColonTZ)]) "";
    mkLayout "2006-01-02T15:04:05.999999999-07:00"
             (dateTime "T" ++ [("", stdFracSecond9 9); ("", stdNumColonTZ)]) "";
    mkLayout "2006-01-02 15:04:05.999999999"
             (dateTime " " ++ [("", stdFracSecond9 9)]) "";
    mkLayout "2006-01-02T15:04:05.999999999"
             (dateTime "T" ++ [("", stdFracSecond9 9)]) "";
    mkLayout "2006-01-02 15:04:05" (dateTime " ") "";
    mkLayout "2006-01-02T15:04:05" (dateTime "T") "";
    mkLayout "2006-01-02 15:04" (dateMinute " ") "";
    mkLayout "2006-01-02T15:04" (dateMinute "T") "";
    mkLayout "2006-01-02" date "" ].

(** The loop over the layouts: [t] and [err] are its two variables. *)
Fixpoint tryLayouts (formats : list Layout) (s : string) (t : Time)
         (err : option ParseError) : Time * option ParseError :=
  match formats with
  | [] => (t, err)
  | format :: rest =>
      let '(timeVal, err') := ParseInLocation format s in
      match err' with
      | None => (timeVal, None)
      | Some e => tryLayouts rest s t (Some e)
      end
  end.

(** The time the driver hands over for the text of a [DATETIME] column. *)
Definition columnTime (text : string) : Time :=
  let s := TrimSuffix text "Z" in
  let '(t, err) := tryLayouts SQLiteTimestampFormats s time.zero None in
  match err with
  | Some _ => time.zero
  | None => t
  end.

End sqlite3.

Module sql.

(** [convertAssign] of a [time.Time] to a [*string]. *)
Definition convertAssign (t : time.Time) : string :=
  time.Format time.RFC3339Nano t.

(** What [Scan] puts into a [*string] for the text of a [DATETIME]
    column. *)
Definition scanDatetime (text : string) : string :=
  convertAssign (sqlite3.columnTime text).

End sql.

(** ** Package [repository] (src/repository/repository.go) *)

Module repository.
Import models.

(** The database behind the handle [DB]. *)
Definition Database : Type := sqlite.Table.

(** What [uuid.New()] and [time.Now()] return in one call of
    [InsertEvent]. *)
Record Env : Type := mkEnv {
  uuid_New : uuid.UUID;
  time_Now : time.Time
}.

(** The errors made with [fmt.Errorf]: a text, or a text in front of the
    error [%w] wraps. *)
Inductive cause : Type :=
| DriverError (e : sqlite.Error)
| TimeError (e : time.ParseError)
| UUIDError (e : uuid.ParseError).

Inductive error : Type :=
| Errorf (msg : string)
| Wrapf (msg : string) (c : cause).

(** The text of a wrapped error; the driver's is SQLite's message, of the
    others only that it comes after the prefix matters here. *)
Definition causeText (c : cause) : string :=
  match c with
  | DriverError e => sqlite.message e
  | TimeError _ => "parsing time"
  | UUIDError _ => "invalid UUID"
  end.

Definition Error (e : error) : string :=
  match e with
  | Errorf msg => msg
  | Wrapf msg c => msg ++ ": " ++ causeText c
  end.

Definition row_of (event : Event.T) : sqlite.Row :=
  sqlite.mkRow (uuid.String (Event.ID event))
               (Event.Title event)
               (Event.Description event)
               (time.Format time.RFC3339 (Event.StartTime event))
               (time.Format time.RFC3339 (Event.EndTime event))
               (time.Format time.RFC3339 (Event.CreatedAt event)).

(** [InsertEvent] writes [ID] and [CreatedAt] through the pointer it gets,
    so the event comes back with the database and the error. *)
Definition InsertEvent (env : Env) (db : Database) (event : Event.T)
  : Database * Event.T * option error :=
  let event1 :=
    if uuid.UUID_eqb (Event.ID event) uuid.Nil
    then Event.mk (uuid_New env) (Event.Title event) (Event.Description event)
                  (Event.StartTime event) (Event.EndTime event) (Event.CreatedAt event)
    else event in
  let event2 :=
    if time.IsZero (Event.CreatedAt event1)
    then Event.mk (Event.ID event1) (Event.Title event1) (Event.Description event1)
                  (Event.StartTime event1) (Event.EndTime event1) (time_Now env)
    else event1 in
  match sqlite.insert db (row_of event2) with
  | Err e => (db, event2, Some (Wrapf "failed to insert event" (DriverError e)))
  | Ok db' => (db', event2, None)
  end.

Definition parseTime (what : string) (s : string) : result time.Time error :=
  match time.Parse time.RFC3339 s with
  | (t, None) => Ok t
  | (_, Some e) => Err (Wrapf what (TimeError e))
  end.

(** [Scan] and the lines after it that [GetEventByID] and [GetAllEvents]
    share: the three timestamps are scanned into strings, then the identifier
    and the three strings are parsed. *)
Definition scan (r : sqlite.Row) : result Event.T error :=
  let startTimeStr := sql.scanDatetime (sqlite.start_time r) in
  let endTimeStr := sql.scanDatetime (sqlite.end_time r) in
  let createdAtStr := sql.scanDatetime (sqlite.created_at r) in
  match uuid.Parse (sqlite.id r) with
  | Err e => Err (Wrapf "failed to parse UUID" (UUIDError e))
  | Ok i =>
      do st <- parseTime "failed to parse start_time" startTimeStr;
      do et <- parseTime "failed to parse end_time" endTimeStr;
      do ct <- parseTime "failed to parse created_at" createdAtStr;
      Ok (Event.mk i (sqlite.title r) (sqlite.description r) st et ct)
  end.

Definition GetEventByID (db : Database) (id : uuid.UUID) : result Event.T error :=
  match sqlite.select_by_id db (uuid.String id) with
  | None => Err (Errorf "event not found")
  | Some r => scan r
  end.

(** A Go slice is [nil] ([None]) until something is appended to it. *)
Definition slice (A : Type) : Type := option (list A).

Definition append {A} (s : slice A) (a : A) : slice A :=
  match s with
  | None => Some [a]
  | Some l => Some (l ++ [a])%list
  end.

(** The [for rows.Next()] loop. *)
Fixpoint scanRows (rows : list sqlite.Row) (events : slice Event.T)
  : result (slice Event.T) error :=
  match rows with
  | [] => Ok events
  | r :: rows' =>
      do event <- scan r;
      scanRows rows' (append events event)
  end.

Definition GetAllEvents (db : Database) : result (slice Event.T) error :=
  scanRows (sqlite.select_all db) None.

Definition UpdateEvent (db : Database) (event : Event.T) : Database * option error :=
  match sqlite.update db (row_of event) with
  | Err e => (db, Some (Wrapf "failed to update event" (DriverError e)))
  | Ok (db', rowsAffected) =>
      if rowsAffected =? 0 then (db', Some (Errorf "event not found"))
      else (db', None)
  end.

Definition DeleteEvent (db : Database) (id : uuid.UUID) : Database * option error :=
  let '(db', rowsAffected) := sqlite.delete db (uuid.String id) in
  if rowsAffected =? 0 then (db', Some (Errorf "event not found"))
  else (db', None).

End repository.

(** ** Package [encoding/json], as far as [c.JSON] uses it *)

Module json.

Inductive Value : Type :=
| Null
| Str (s : string)
| Arr (l : list Value)
| Obj (members : list (string * Value)).

Fixpoint lookup (k : string) (members : list (string * Value)) : option Value :=
  match members with
  | [] => None
  | (k', v) :: rest => if String.eqb k k' then Some v else lookup k rest
  end.

Definition field (k : string) (v : Value) : option Value :=
  match v with
  | Obj members => lookup k members
  | _ => None
  end.

Definition marshalTime (t : time.Time) : result Value string :=
  do s <- time.MarshalJSON t; Ok (Str s).

(** [json.Marshal] of a [models.Event], by its field tags: the identifier
    by its [MarshalText], a [nil] description left out ([omitempty]), the
    timestamps by their [MarshalJSON]. *)
Definition marshalEvent (e : models.Event.T) : result Value string :=
  do st <- marshalTime (models.Event.StartTime e);
  do et <- marshalTime (models.Event.EndTime e);
  do ct <- marshalTime (models.Event.CreatedAt e);
  Ok (Obj ([("id", Str (uuid.String (models.Event.ID e)));
            ("title", Str (models.Event.Title e))]
           ++ match models.Event.Description e with
              | Some d => [("description", Str d)]
              | None => []
              end
           ++ [("start_time", st); ("end_time", et); ("created_at", ct)])%list).

Fixpoint marshalEvents (l : list models.Event.T) : result (list Value) string :=
  match l with
  | [] => Ok []
  | e :: l' =>
      do v <- marshalEvent e;
      do vs <- marshalEvents l';
      Ok (v :: vs)
  end.

(** A [nil] slice is [null], any other an array. *)
Definition marshalSlice (s : repository.slice models.Event.T) : result Value string :=
  match s with
  | None => Ok Null
  | Some l => do vs <- marshalEvents l; Ok (Arr vs)
  end.

End json.

(** ** Package [service] (src/unnamed/part_000) *)

Module service.
Import models.

(** What a handler returns: an [echo.NewHTTPError] with the [error] entry
    of its map, or the arguments of [c.JSON]. *)
Inductive Payload : Type :=
| OneEvent (event : Event.T)
| Events (events : repository.slice Event.T).

Inductive Response : Type :=
| HTTPError (code : Z) (message : string)
| JSON (code : Z) (body : Payload).

Definition StatusOK : Z := 200.
Definition StatusCreated : Z := 201.
Definition StatusBadRequest : Z := 400.
Definition StatusNotFound : Z := 404.
Definition StatusInternalServerError : Z := 500.

(** The event [createEvent] builds for a request that passed [IsValid]
    (lines 63-73): both errors of [ParseTimestamp] are dropped. *)
Definition newEvent (req : CreateEventRequest.T) : Event.T :=
  let '(startTime, _) := utils.ParseTimestamp (CreateEventRequest.StartTime req) in
  let '(endTime, _) := utils.ParseTimestamp (CreateEventRequest.EndTime req) in
  Event.mk uuid.Nil (CreateEventRequest.Title req)
           (CreateEventRequest.Description req) startTime endTime time.zero.

(** [createEvent], from the bound request on. *)
Definition createEvent (env : repository.Env) (db : repository.Database)
           (req : CreateEventRequest.T) : repository.Database * Response :=
  match IsValid req with
  | Some err => (db, HTTPError StatusBadRequest (models.Error err))
  | None =>
      match repository.InsertEvent env db (newEvent req) with
      | (db', _, Some _) =>
          (db', HTTPError StatusInternalServerError "Failed to create event")
      | (db', event, None) => (db', JSON StatusCreated (OneEvent event))
      end
  end.

Definition listEvents (db : repository.Database) : Response :=
  match repository.GetAllEvents db with
  | Err _ => HTTPError StatusInternalServerError "Failed to retrieve events"
  | Ok events =>
      let events' := match events with None => Some [] | Some l => Some l end in
      JSON StatusOK (Events events')
  end.

Definition getEventByID (db : repository.Database) (idParam : string) : Response :=
  match uuid.Parse idParam with
  | Err _ => HTTPError StatusBadRequest "Invalid UUID format"
  | Ok id =>
      match repository.GetEventByID db id with
      | Err err =>
          if String.eqb (repository.Error err) "event not found"
          then HTTPError StatusNotFound "Event not found"
          else HTTPError StatusInternalServerError "Failed to retrieve event"
      | Ok event => JSON StatusOK (OneEvent event)
      end
  end.

(** What goes out: the status and the JSON body.  An [HTTPError] carries
    its map; a value that [c.JSON] cannot encode ends as the framework's
    plain 500. *)
Record Wire : Type := mkWire { status : Z; body : json.Value }.

Definition marshal (p : Payload) : result json.Value string :=
  match p with
  | OneEvent e => json.marshalEvent e
  | Events s => json.marshalSlice s
  end.

Definition send (r : Response) : Wire :=
  match r with
  | HTTPError code message => mkWire code (json.Obj [("error", json.Str message)])
  | JSON code p =>
      match marshal p with
      | Ok v => mkWire code v
      | Err _ =>
          mkWire StatusInternalServerError
                 (json.Obj [("message", json.Str "Internal Server Error")])
      end
  end.

End service.

(** ** The notions the properties are stated with *)

Module props.
Import models.

(** The four checks of the validator, by the words of the specification. *)
Inductive Check : Type :=
| CheckTitleEmpty
| CheckTitleTooLong
| CheckInvalidTimeFormat
| CheckEndTimeBeforeStart.

Definition order : list Check :=
  [CheckTitleEmpty; CheckTitleTooLong; CheckInvalidTimeFormat; CheckEndTimeBeforeStart].

Definition error_of (c : Check) : ValidationError :=
  match c with
  | CheckTitleEmpty => TitleEmpty
  | CheckTitleTooLong => TitleTooLong
  | CheckInvalidTimeFormat => InvalidTimeFormat
  | CheckEndTimeBeforeStart => EndTimeBeforeStart
  end.

Definition parses (s : string) : bool :=
  match snd (utils.ParseTimestamp s) with
  | None => true
  | Some _ => false
  end.

(** When a check applies to a request, each taken alone. *)
Definition applies (req : CreateEventRequest.T) (c : Check) : bool :=
  match c with
  | CheckTitleEmpty => String.eqb (CreateEventRequest.Title req) ""
  | CheckTitleTooLong => 100 <? len (CreateEventRequest.Title req)
  | CheckInvalidTimeFormat =>
      negb (parses (CreateEventRequest.StartTime req))
      || negb (parses (CreateEventRequest.EndTime req))
  | CheckEndTimeBeforeStart =>
      parses (CreateEventRequest.StartTime req)
      && parses (CreateEventRequest.EndTime req)
      && time.Before (fst (utils.ParseTimestamp (CreateEventRequest.EndTime req)))
                     (fst (utils.ParseTimestamp (CreateEventRequest.StartTime req)))
  end.

(** The instant of [t] comes strictly before the instant of [u]. *)
Definition precedes (t u : time.Time) : Prop :=
  time.absSec t < time.absSec u
  \/ (time.absSec t = time.absSec u /\ time.nsec t < time.nsec u).

Definition same_instant (t u : time.Time) : Prop :=
  time.absSec t = time.absSec u /\ time.nsec t = time.nsec u.

(** [t] without its fraction of a second. *)
Definition whole_second (t : time.Time) : time.Time :=
  time.mkTime (time.year t) (time.month t) (time.day t) (time.hour t)
              (time.minute t) (time.second t) 0 (time.offset t).

(** The offset that [formatZone] prints: whole minutes. *)
Definition minutes (off : Z) : Z := Z.quot off 60 * 60.

(** What [Parse] reads back from the text [Format] wrote with [RFC3339]:
    the same date and clock, no fraction of a second, and the zone in whole
    minutes. *)
Definition reread (t : time.Time) : time.Time :=
  time.mkTime (time.year t) (time.month t) (time.day t) (time.hour t)
              (time.minute t) (time.second t) 0 (minutes (time.offset t)).

(** The date and the clock of [t] as [RFC3339] and the driver's layouts
    with a [T] print them: YYYY-MM-DDTHH:MM:SS. *)
Definition clockText (t : time.Time) : string :=
  time.appendInt (time.year t) 4 ++ "-" ++ time.appendInt (time.month t) 2 ++ "-"
  ++ time.appendInt (time.day t) 2 ++ "T" ++ time.appendInt (time.hour t) 2 ++ ":"
  ++ time.appendInt (time.minute t) 2 ++ ":" ++ time.appendInt (time.second t) 2.

(** The locals of [parse] once it has read the date and the clock of [t]. *)
Definition fieldsOf (t : time.Time) : time.fields :=
  time.mkFields (time.year t) (time.month t) (time.day t) (time.hour t)
                (time.minute t) (time.second t) 0 false (-1).

(** A date and a clock as a calendar has them, in a year of four digits. *)
Definition civil (t : time.Time) : Prop :=
  0 <= time.year t <= 9999
  /\ 1 <= time.month t <= 12
  /\ 1 <= time.day t <= time.daysIn (time.month t) (time.year t)
  /\ 0 <= time.hour t <= 23
  /\ 0 <= time.minute t <= 59
  /\ 0 <= time.second t <= 59.

(** What a reading of the clock is taken to be: a calendar date and a zone
    less than 25 hours from UTC. *)
Definition clock (t : time.Time) : Prop :=
  civil t /\ Z.abs (time.offset t) < 90000.

(** The locals of [parse] stay within these ranges. *)
Definition fields_ok (f : time.fields) : Prop :=
  0 <= time.p_year f <= 9999
  /\ (time.p_month f = -1 \/ 1 <= time.p_month f <= 12)
  /\ (time.p_day f = -1 \/ 0 <= time.p_day f <= 99)
  /\ 0 <= time.p_hour f <= 23
  /\ 0 <= time.p_min f <= 59
  /\ 0 <= time.p_sec f <= 59
  /\ (time.p_zoneOffset f = -1
      \/ (time.p_zoneOffset f mod 60 = 0 /\ Z.abs (time.p_zoneOffset f) <= 90000)).

(** A time as [Parse] makes it. *)
Definition parsed (t : time.Time) : Prop :=
  civil t /\ time.offset t mod 60 = 0 /\ Z.abs (time.offset t) <= 90000.

(** The primary key: no two rows with one identifier. *)
Definition primary_key (db : repository.Database) : Prop :=
  NoDup (map sqlite.id db).

Definition ids (db : repository.Database) : list string := map sqlite.id db.

(** The order of the listing query: by the texts of [start_time]. *)
Definition text_le (r1 r2 : sqlite.Row) : Prop :=
  String.leb (sqlite.start_time r1) (sqlite.start_time r2) = true.

(** The tables the repository can make of an empty one. *)
Inductive reachable : repository.Database -> Prop :=
| reach_empty : reachable []
| reach_insert env db ev :
    reachable db -> reachable (fst (fst (repository.InsertEvent env db ev)))
| reach_update db ev :
    reachable db -> reachable (fst (repository.UpdateEvent db ev))
| reach_delete db id :
    reachable db -> reachable (fst (repository.DeleteEvent db id)).

End props.

(** ** Requests, clocks and tables the properties are tried on *)

Module examples.
Import models.

(** 123e4567-e89b-12d3-a456-426614174000 *)
Definition id1 : uuid.UUID :=
  uuid.mkUUID "018" ">" "E" "g" "232" "155" "018" "211"
              "164" "V" "B" "f" "020" "023" "@" "000".

(** 987fcdeb-51a2-43f7-b123-456789abcdef *)
Definition id2 : uuid.UUID :=
  uuid.mkUUID "152" "127" "205" "235" "Q" "162" "C" "247"
              "177" "#" "E" "g" "137" "171" "205" "239".

(** A clock at 2026-01-15 14:30:00.123456789 UTC. *)
Definition now : time.Time := time.mkTime 2026 1 15 14 30 0 123456789 0.

Definition env1 : repository.Env := repository.mkEnv id1 now.
Definition env2 : repository.Env := repository.mkEnv id2 now.

Definition standup : CreateEventRequest.T :=
  CreateEventRequest.mk "Quick Standup" None
                        "2026-01-16T09:00:00Z" "2026-01-16T09:15:00Z".

(** The start has half a second. *)
Definition half : CreateEventRequest.T :=
  CreateEventRequest.mk "Team Meeting" (Some "Quarterly planning session")
                        "2026-01-20T10:00:00.5Z" "2026-01-20T11:00:00Z".

(** 10:00 at five hours east of UTC, which is 05:00 UTC. *)
Definition east : CreateEventRequest.T :=
  CreateEventRequest.mk "Project Review" None
                        "2026-01-16T10:00:00+05:00" "2026-01-16T11:00:00+05:00".

(** The end is an hour before the start. *)
Definition backwards : CreateEventRequest.T :=
  CreateEventRequest.mk "Invalid Event" None
                        "2026-01-20T11:00:00Z" "2026-01-20T10:00:00Z".

Definition letters (n : nat) : string :=
  string_of_list_ascii (repeat "a"%char n).

(** [n] times the two bytes of one accented letter. *)
Definition accents (n : nat) : string :=
  String.concat "" (repeat (String "195" (String "169" "")) n).

Definition titled (title : string) : CreateEventRequest.T :=
  CreateEventRequest.mk title None "2026-01-16T09:00:00Z" "2026-01-16T09:00:00Z".

(** An event with an identifier of its own and a title of 101 letters. *)
Definition long_event : Event.T :=
  Event.mk id2 (letters 101) None
           (time.mkTime 2026 1 16 9 0 0 0 0) (time.mkTime 2026 1 16 9 15 0 0 0)
           time.zero.

Definition short_event : Event.T :=
  Event.mk id2 "Quick Standup" None
           (time.mkTime 2026 1 16 9 0 0 0 0) (time.mkTime 2026 1 16 9 15 0 0 0)
           time.zero.

(** The table after [standup] was created under [env1]. *)
Definition one_row : repository.Database :=
  fst (service.createEvent env1 [] standup).

(** [east] and [standup] created one after the other, in both orders. *)
Definition east_then_standup : repository.Database :=
  fst (service.createEvent env2 (fst (service.createEvent env1 [] east)) standup).

Definition standup_then_east : repository.Database :=
  fst (service.createEvent env2 (fst (service.createEvent env1 [] standup)) east).

End examples.

(** ** Notions for the repository and the handlers as a whole *)

Module store.
Import models.

(** An event whose three times the table can keep: each a calendar date
    in a year of four digits, in a zone less than 25 hours from UTC. *)
Definition storable (ev : Event.T) : Prop :=
  props.clock (Event.StartTime ev)
  /\ props.clock (Event.EndTime ev)
  /\ props.clock (Event.CreatedAt ev).

(** The event that is read from the row of [ev]. *)
Definition stored (ev : Event.T) : Event.T :=
  Event.mk (Event.ID ev) (Event.Title ev) (Event.Description ev)
           (props.reread (Event.StartTime ev))
           (props.reread (Event.EndTime ev))
           (props.reread (Event.CreatedAt ev)).

(** A row as [InsertEvent] and [UpdateEvent] write it. *)
Definition written (r : sqlite.Row) : Prop :=
  exists ev : Event.T, storable ev /\ r = repository.row_of ev.

(** The tables that calls of [createEvent] make of an empty one. *)
Inductive served : repository.Database -> Prop :=
| served_empty : served []
| served_create env db req :
    served db -> served (fst (service.createEvent env db req)).

(** The title of a row is one [IsValid] lets pass. *)
Definition titled (r : sqlite.Row) : Prop :=
  sqlite.title r <> "" /\ len (sqlite.title r) <= 100.

(** The instant of a time: seconds and nanoseconds. *)
Definition instant_le (t u : time.Time) : Prop :=
  time.absSec t < time.absSec u
  \/ (time.absSec t = time.absSec u /\ time.nsec t <= time.nsec u).

End store.

(** * Proofs *)

(** ** The timestamp parser *)

Section ParseTimestamp.
Import time utils.

Lemma Parse_error_or_value layout value :
  (exists t, Parse layout value = (t, None) /\ parse layout value = Ok t)
  \/ (exists e, Parse layout value = (zero, Some e) /\ parse layout value = Err e).
Proof.
  unfold Parse. destruct (parse layout value) as [t|e]; eauto.
Qed.

(** The loop returns the value of the first format without an error, and
    an error when it has gone through all of them. *)
Lemma tryFormats_ok fs timestamp lastErr t :
  tryFormats fs timestamp lastErr = (t, None) ->
  lastErr = None /\ fs = [] /\ t = zero
  \/ exists i f, nth_error fs i = Some f
                 /\ Parse f timestamp = (t, None)
                 /\ forall j g, (j < i)%nat -> nth_error fs j = Some g ->
                                snd (Parse g timestamp) <> None.
Proof.
  revert lastErr. induction fs as [|f fs IH]; intros lastErr H; simpl in H.
  - left. inversion H; auto.
  - right. destruct (Parse f timestamp) as [u [e|]] eqn:Hf.
    + apply IH in H. destruct H as [(He & _) | (i & g & Hi & Hg & Hlt)];
        [discriminate|].
      exists (S i), g. repeat split; auto.
      intros [|j] g' Hj Hn; simpl in Hn.
      * inversion Hn; subst. rewrite Hf. discriminate.
      * apply (Hlt j g'); [lia | exact Hn].
    + inversion H; subst. exists 0%nat, f. repeat split; auto.
      intros j g Hj. lia.
Qed.

Lemma tryFormats_first fs timestamp lastErr i f :
  nth_error fs i = Some f ->
  snd (Parse f timestamp) = None ->
  (forall j g, (j < i)%nat -> nth_error fs j = Some g ->
               snd (Parse g timestamp) <> None) ->
  tryFormats fs timestamp lastErr = (fst (Parse f timestamp), None).
Proof.
  revert lastErr i. induction fs as [|g fs IH]; intros lastErr i Hi Hf Hlt.
  - destruct i; discriminate.
  - simpl. destruct i as [|i]; simpl in Hi.
    + inversion Hi; subst. destruct (Parse f timestamp) as [u [e|]]; simpl in *;
        [discriminate | reflexivity].
    + destruct (Parse g timestamp) as [u [e|]] eqn:Hg.
      * apply IH with (i := i); auto.
        intros j g' Hj Hn. apply (Hlt (S j) g'); [lia | exact Hn].
      * exfalso. apply (Hlt 0%nat g); [lia | reflexivity | now rewrite Hg].
Qed.

Lemma tryFormats_error fs timestamp lastErr :
  snd (tryFormats fs timestamp lastErr) <> None <->
  (forall f, In f fs -> snd (Parse f timestamp) <> None)
  /\ (fs = [] -> lastErr <> None).
Proof.
  revert lastErr. induction fs as [|f fs IH]; intros lastErr; simpl.
  - split.
    + intros H. split; [intros f [] | auto].
    + intros [_ H]. auto.
  - destruct (Parse f timestamp) as [u [e|]] eqn:Hf; simpl.
    + rewrite IH. split.
      * intros [H _]. split; [|discriminate].
        intros g [<-|Hg]; [rewrite Hf; discriminate | auto].
      * intros [H _]. split; [auto|]. intros _. discriminate.
    + split; [congruence|].
      intros [H _]. exfalso. apply (H f); [auto | now rewrite Hf].
Qed.

End ParseTimestamp.

Import models.

(** C2.  [ParseTimestamp] goes through the six formats in the order of the
    specification (RFC3339, RFC3339 with a fraction, date and time with [T],
    with a space, with three digits and [Z], with six digits and [Z]); its
    value is the value of the first format that parses the string, and it
    fails exactly when every format fails. *)
Theorem ParseTimestamp_first_format :
  map time.text utils.formats =
    [ "2006-01-02T15:04:05Z07:00"; "2006-01-02T15:04:05.999999999Z07:00";
      "2006-01-02T15:04:05"; "2006-01-02 15:04:05";
      "2006-01-02T15:04:05.000Z"; "2006-01-02T15:04:05.000000Z" ]
  /\ forall timestamp,
      (forall t, utils.ParseTimestamp timestamp = (t, None) <->
                 exists i f, nth_error utils.formats i = Some f
                             /\ time.Parse f timestamp = (t, None)
                             /\ forall j g, (j < i)%nat ->
                                  nth_error utils.formats j = Some g ->
                                  snd (time.Parse g timestamp) <> None)
      /\ (snd (utils.ParseTimestamp timestamp) <> None <->
          forall f, In f utils.formats -> snd (time.Parse f timestamp) <> None).
Proof.
  split; [reflexivity|]. intros timestamp. split.
  - intros t. unfold utils.ParseTimestamp. split.
    + intros H. apply tryFormats_ok in H.
      destruct H as [(_ & H & _) | H]; [discriminate | exact H].
    + intros (i & f & Hi & Hf & Hlt).
      rewrite tryFormats_first with (i := i) (f := f);
        [now rewrite Hf | exact Hi | now rewrite Hf | exact Hlt].
  - unfold utils.ParseTimestamp. rewrite tryFormats_error. split.
    + intros [H _]. exact H.
    + intros H. split; [exact H | discriminate].
Qed.

(** ** The validator *)

Section Validator.
Import props.

Lemma IsValid_unfold req :
  IsValid req =
    if String.eqb (CreateEventRequest.Title req) "" then Some TitleEmpty
    else if 100 <? len (CreateEventRequest.Title req) then Some TitleTooLong
    else match snd (utils.ParseTimestamp (CreateEventRequest.StartTime req)),
               snd (utils.ParseTimestamp (CreateEventRequest.EndTime req)) with
         | None, None =>
             if time.Before (fst (utils.ParseTimestamp (CreateEventRequest.EndTime req)))
                            (fst (utils.ParseTimestamp (CreateEventRequest.StartTime req)))
             then Some EndTimeBeforeStart else None
         | _, _ => Some InvalidTimeFormat
         end.
Proof.
  unfold IsValid, MaxTitleLength.
  destruct (utils.ParseTimestamp (CreateEventRequest.StartTime req)) as [s [e|]];
    destruct (utils.ParseTimestamp (CreateEventRequest.EndTime req)) as [u [e'|]];
    reflexivity.
Qed.

(** A request that passes has two timestamps that parse. *)
Lemma IsValid_parses req :
  IsValid req = None ->
  snd (utils.ParseTimestamp (CreateEventRequest.StartTime req)) = None
  /\ snd (utils.ParseTimestamp (CreateEventRequest.EndTime req)) = None
  /\ time.Before (fst (utils.ParseTimestamp (CreateEventRequest.EndTime req)))
                 (fst (utils.ParseTimestamp (CreateEventRequest.StartTime req))) = false
  /\ CreateEventRequest.Title req <> ""
  /\ len (CreateEventRequest.Title req) <= 100.
Proof.
  rewrite IsValid_unfold.
  destruct (String.eqb_spec (CreateEventRequest.Title req) ""); [discriminate|].
  destruct (Z.ltb_spec 100 (len (CreateEventRequest.Title req))); [discriminate|].
  destruct (snd (utils.ParseTimestamp (CreateEventRequest.StartTime req)));
    [discriminate|].
  destruct (snd (utils.ParseTimestamp (CreateEventRequest.EndTime req)));
    [discriminate|].
  destruct (time.Before _ _); [discriminate|]. auto.
Qed.

Lemma Before_precedes t u : time.Before t u = true <-> precedes t u.
Proof.
  unfold time.Before, precedes.
  rewrite orb_true_iff, andb_true_iff, !Z.ltb_lt, Z.eqb_eq. reflexivity.
Qed.

Lemma same_instant_not_Before t u : same_instant t u -> time.Before t u = false.
Proof.
  intros [H1 H2]. apply not_true_is_false. rewrite Before_precedes.
  unfold precedes. lia.
Qed.

End Validator.

(** C1.  [IsValid] returns the error of the first check that applies, in
    the order TitleEmpty, TitleTooLong, InvalidTimeFormat,
    EndTimeBeforeStart, and no error when none applies; the four errors are
    four different values, so the answer names one check. *)
Theorem IsValid_first_applicable_check :
  forall req : CreateEventRequest.T,
    IsValid req = option_map props.error_of (find (props.applies req) props.order)
    /\ NoDup (map props.error_of props.order).
Proof.
  intros req. split.
  - rewrite IsValid_unfold. unfold props.order.
    cbn [find props.applies]. unfold props.parses.
    destruct (String.eqb (CreateEventRequest.Title req) ""); [reflexivity|].
    destruct (100 <? len (CreateEventRequest.Title req)); [reflexivity|].
    destruct (snd (utils.ParseTimestamp (CreateEventRequest.StartTime req)));
      [reflexivity|].
    destruct (snd (utils.ParseTimestamp (CreateEventRequest.EndTime req)));
      [reflexivity|].
    cbn [negb orb andb]. destruct (time.Before _ _); reflexivity.
  - cbn [map props.order props.error_of].
    repeat constructor; cbn [In]; intuition discriminate.
Qed.

(** C5.  With timestamps that parse and an end not before the start, a
    title of exactly 100 bytes passes, and a title of more than 100 bytes is
    refused with TitleTooLong; the length is [len], the count of bytes. *)
Theorem IsValid_title_length :
  forall req : CreateEventRequest.T,
    snd (utils.ParseTimestamp (CreateEventRequest.StartTime req)) = None ->
    snd (utils.ParseTimestamp (CreateEventRequest.EndTime req)) = None ->
    time.Before (fst (utils.ParseTimestamp (CreateEventRequest.EndTime req)))
                (fst (utils.ParseTimestamp (CreateEventRequest.StartTime req))) = false ->
    (Z.of_nat (String.length (CreateEventRequest.Title req)) = 100 ->
     IsValid req = None)
    /\ (Z.of_nat (String.length (CreateEventRequest.Title req)) > 100 ->
        IsValid req = Some TitleTooLong).
Proof.
  intros req Hs He Hb. rewrite IsValid_unfold, Hs, He, Hb. unfold len.
  split; intros Hlen.
  - destruct (String.eqb_spec (CreateEventRequest.Title req) "") as [E|_].
    + rewrite E in Hlen. discriminate.
    + destruct (Z.ltb_spec 100 (Z.of_nat (String.length (CreateEventRequest.Title req))));
        [lia | reflexivity].
  - destruct (String.eqb_spec (CreateEventRequest.Title req) "") as [E|_].
    + rewrite E in Hlen. simpl in Hlen. lia.
    + destruct (Z.ltb_spec 100 (Z.of_nat (String.length (CreateEventRequest.Title req))));
        [reflexivity | lia].
Qed.

Lemma IsValid_title_length_witness :
  (models.IsValid (examples.titled (examples.letters 100)) = None
   /\ models.IsValid (examples.titled (examples.letters 101)) = Some TitleTooLong)
  /\ (models.IsValid (examples.titled (examples.accents 50)) = None
      /\ models.IsValid (examples.titled (examples.accents 51)) = Some TitleTooLong).
Proof.
  split; split.
  - apply (IsValid_title_length (examples.titled (examples.letters 100)));
      vm_compute; reflexivity.
  - apply (IsValid_title_length (examples.titled (examples.letters 101)));
      vm_compute; reflexivity.
  - apply (IsValid_title_length (examples.titled (examples.accents 50)));
      vm_compute; reflexivity.
  - apply (IsValid_title_length (examples.titled (examples.accents 51)));
      vm_compute; reflexivity.
Defined.

(** C6.  With a title that is not empty and within the limit and two
    timestamps that parse, [IsValid] answers EndTimeBeforeStart exactly when
    the instant of the end comes strictly before the instant of the start; an
    end at the instant of the start passes. *)
Theorem IsValid_end_before_start :
  forall (req : CreateEventRequest.T) (s e : time.Time),
    CreateEventRequest.Title req <> "" ->
    len (CreateEventRequest.Title req) <= 100 ->
    utils.ParseTimestamp (CreateEventRequest.StartTime req) = (s, None) ->
    utils.ParseTimestamp (CreateEventRequest.EndTime req) = (e, None) ->
    (IsValid req = Some EndTimeBeforeStart <-> props.precedes e s)
    /\ (~ props.precedes e s -> IsValid req = None)
    /\ (props.same_instant e s -> IsValid req = None).
Proof.
  intros req s e Ht Hl Hs He. rewrite IsValid_unfold, Hs, He. simpl.
  destruct (String.eqb_spec (CreateEventRequest.Title req) "") as [E|_];
    [contradiction|].
  destruct (Z.ltb_spec 100 (len (CreateEventRequest.Title req))) as [Hgt|_]; [lia|].
  rewrite <- Before_precedes.
  split; [|split].
  - destruct (time.Before e s); split; congruence.
  - destruct (time.Before e s); congruence.
  - intros Hsame. now rewrite (same_instant_not_Before e s Hsame).
Qed.

Lemma IsValid_end_before_start_witness :
  (models.IsValid examples.backwards = Some EndTimeBeforeStart
   <-> props.precedes (time.mkTime 2026 1 20 10 0 0 0 0)
                      (time.mkTime 2026 1 20 11 0 0 0 0))
  /\ (~ props.precedes (time.mkTime 2026 1 20 10 0 0 0 0)
                       (time.mkTime 2026 1 20 11 0 0 0 0) ->
      models.IsValid examples.backwards = None)
  /\ (props.same_instant (time.mkTime 2026 1 20 10 0 0 0 0)
                         (time.mkTime 2026 1 20 11 0 0 0 0) ->
      models.IsValid examples.backwards = None).
Proof.
  apply (IsValid_end_before_start examples.backwards).
  - discriminate.
  - vm_compute. discriminate.
  - vm_compute. reflexivity.
  - vm_compute. reflexivity.
Defined.

(** C10.  For a request on which [IsValid] returns no error, the two calls
    of [ParseTimestamp] in [createEvent] return no error either, so the
    errors it drops are [nil]; the event handed to [InsertEvent] has the two
    parsed times, the title and the description of the request, no identifier
    and no creation time yet. *)
Theorem createEvent_parse_errors_nil :
  forall (env : repository.Env) (db : repository.Database) (req : CreateEventRequest.T),
    IsValid req = None ->
    exists s e : time.Time,
      utils.ParseTimestamp (CreateEventRequest.StartTime req) = (s, None)
      /\ utils.ParseTimestamp (CreateEventRequest.EndTime req) = (e, None)
      /\ service.newEvent req =
           Event.mk uuid.Nil (CreateEventRequest.Title req)
                    (CreateEventRequest.Description req) s e time.zero
      /\ service.createEvent env db req =
           match repository.InsertEvent env db (service.newEvent req) with
           | (db', _, Some _) =>
               (db', service.HTTPError 500 "Failed to create event")
           | (db', event, None) => (db', service.JSON 201 (service.OneEvent event))
           end.
Proof.
  intros env db req Hv.
  destruct (IsValid_parses req Hv) as (Hs & He & _).
  unfold service.createEvent, service.newEvent. rewrite Hv.
  destruct (utils.ParseTimestamp (CreateEventRequest.StartTime req)) as [s es].
  destruct (utils.ParseTimestamp (CreateEventRequest.EndTime req)) as [e ee].
  simpl in Hs, He. subst. exists s, e. auto.
Qed.

Lemma createEvent_parse_errors_nil_witness :
  exists s e : time.Time,
    utils.ParseTimestamp "2026-01-16T09:00:00Z" = (s, None)
    /\ utils.ParseTimestamp "2026-01-16T09:15:00Z" = (e, None)
    /\ service.newEvent examples.standup =
         Event.mk uuid.Nil "Quick Standup" None s e time.zero
    /\ service.createEvent examples.env1 [] examples.standup =
         match repository.InsertEvent examples.env1 []
                 (service.newEvent examples.standup) with
         | (db', _, Some _) => (db', service.HTTPError 500 "Failed to create event")
         | (db', event, None) => (db', service.JSON 201 (service.OneEvent event))
         end.
Proof.
  apply (createEvent_parse_errors_nil examples.env1 [] examples.standup).
  vm_compute. reflexivity.
Defined.

(** ** Strings *)

Lemma append_nil_r (s : string) : s ++ "" = s.
Proof. induction s; simpl; congruence. Qed.

Lemma append_assoc (s1 s2 s3 : string) : (s1 ++ s2) ++ s3 = s1 ++ s2 ++ s3.
Proof. induction s1; simpl; congruence. Qed.

Lemma length_append (s1 s2 : string) :
  String.length (s1 ++ s2) = (String.length s1 + String.length s2)%nat.
Proof. induction s1; simpl; congruence. Qed.

(** Linear arithmetic with division and remainder by a constant. *)
Ltac dlia := Z.div_mod_to_equations; lia.

(** ** Digits *)

Section Digits.
Import time.

Lemma digit_cases d :
  0 <= d <= 9 ->
  d = 0 \/ d = 1 \/ d = 2 \/ d = 3 \/ d = 4 \/ d = 5 \/ d = 6 \/ d = 7 \/ d = 8 \/ d = 9.
Proof. lia. Qed.

Ltac by_digit d H :=
  destruct (digit_cases d H) as [?|[?|[?|[?|[?|[?|[?|[?|[?|?]]]]]]]]]; subst d; reflexivity.

Lemma utod_isDigit d : 0 <= d <= 9 -> isDigitByte (utod d) = true.
Proof. intros H. by_digit d H. Qed.

Lemma utod_value d : 0 <= d <= 9 -> code (utod d) - code "0" = d.
Proof. intros H. by_digit d H. Qed.

Lemma utod_not_minus d : 0 <= d <= 9 -> Ascii.eqb (utod d) "-" = false.
Proof. intros H. by_digit d H. Qed.

Lemma utod_not_plus d : 0 <= d <= 9 -> Ascii.eqb (utod d) "+" = false.
Proof. intros H. by_digit d H. Qed.

Lemma utod_not_Z d : 0 <= d <= 9 -> Ascii.eqb (utod d) "Z" = false.
Proof. intros H. by_digit d H. Qed.

Lemma appendInt_2 n :
  0 <= n < 100 ->
  appendInt n 2 = String (utod (n / 10)) (String (utod (n mod 10)) "").
Proof.
  intros H. unfold appendInt.
  destruct (Z.ltb_spec n 0); [lia|].
  rewrite Z.abs_eq by lia.
  destruct (Z.ltb_spec n 100); [|lia]. reflexivity.
Qed.

Lemma appendInt_4 n :
  0 <= n < 10000 ->
  appendInt n 4 =
    String (utod (n / 1000)) (String (utod (n / 100 mod 10))
      (String (utod (n / 10 mod 10)) (String (utod (n mod 10)) ""))).
Proof.
  intros H. unfold appendInt.
  destruct (Z.ltb_spec n 0); [lia|].
  rewrite Z.abs_eq by lia.
  destruct (Z.ltb_spec n 10000); [|lia]. reflexivity.
Qed.

Lemma getnum_two a b v fixed :
  0 <= a <= 9 -> 0 <= b <= 9 ->
  getnum (String (utod a) (String (utod b) v)) fixed = (a * 10 + b, v, None).
Proof.
  intros Ha Hb. unfold getnum, isDigit, digitAt. simpl.
  rewrite (utod_isDigit a Ha), (utod_isDigit b Hb). simpl.
  rewrite (utod_value a Ha), (utod_value b Hb). reflexivity.
Qed.

Lemma getnum_appendInt n v fixed :
  0 <= n < 100 ->
  getnum (appendInt n 2 ++ v) fixed = (n, v, None).
Proof.
  intros H. rewrite (appendInt_2 n H). simpl.
  rewrite getnum_two by dlia.
  f_equal. f_equal. dlia.
Qed.

End Digits.

(** ** [Parse] after [Format], for [RFC3339] *)

Section ParseFormat.
Import time props.

Lemma leadingInt_loop_digit x d s :
  0 <= d <= 9 -> 0 <= x <= 1000000000 ->
  leadingInt_loop x (String (utod d) s) = leadingInt_loop (x * 10 + d) s.
Proof.
  intros Hd Hx. cbn [leadingInt_loop].
  rewrite (utod_isDigit d Hd), (utod_value d Hd).
  change (2 ^ 63 / 10) with 922337203685477580.
  change (2 ^ 63) with 9223372036854775808.
  destruct (Z.ltb_spec 922337203685477580 x); [lia|].
  destruct (Z.ltb_spec 9223372036854775808 (x * 10 + d)); [lia|]. reflexivity.
Qed.

Lemma atoi_four a b c d :
  0 <= a <= 9 -> 0 <= b <= 9 -> 0 <= c <= 9 -> 0 <= d <= 9 ->
  atoi (String (utod a) (String (utod b) (String (utod c) (String (utod d) ""))))
  = Ok (((a * 10 + b) * 10 + c) * 10 + d).
Proof.
  intros Ha Hb Hc Hd. unfold atoi, byteIs. cbn [String.get].
  rewrite (utod_not_minus a Ha), (utod_not_plus a Ha). cbn [orb].
  unfold leadingInt.
  rewrite !leadingInt_loop_digit by lia. reflexivity.
Qed.

Lemma parseStd_year next f y v :
  0 <= y <= 9999 ->
  parseStd stdLongYear next f (appendInt y 4 ++ v) = Ok (set_year f y, v).
Proof.
  intros H. rewrite appendInt_4 by lia. cbn [append parseStd String.length].
  unfold isDigit. cbn [String.get take drop Nat.ltb Nat.leb orb].
  rewrite utod_isDigit by dlia. cbn [negb].
  rewrite atoi_four by dlia. cbn [bind].
  do 3 f_equal. dlia.
Qed.

Lemma finish_ok f v : finish f v None None = Ok (f, v).
Proof. reflexivity. Qed.

Lemma parseStd_month next f m v :
  1 <= m <= 12 ->
  parseStd stdZeroMonth next f (appendInt m 2 ++ v) = Ok (set_month f m, v).
Proof.
  intros H. cbn [parseStd]. rewrite getnum_appendInt by lia.
  destruct (Z.leb_spec m 0); [lia|]. destruct (Z.ltb_spec 12 m); [lia|]. reflexivity.
Qed.

Lemma parseStd_day next f d v :
  0 <= d <= 99 ->
  parseStd stdZeroDay next f (appendInt d 2 ++ v) = Ok (set_day f d, v).
Proof.
  intros H. cbn [parseStd]. rewrite getnum_appendInt by lia. reflexivity.
Qed.

Lemma parseStd_hour next f h v :
  0 <= h <= 23 ->
  parseStd stdHour next f (appendInt h 2 ++ v) = Ok (set_hour f h, v).
Proof.
  intros H. cbn [parseStd]. rewrite getnum_appendInt by lia.
  destruct (Z.ltb_spec h 0); [lia|]. destruct (Z.leb_spec 24 h); [lia|]. reflexivity.
Qed.

Lemma parseStd_minute next f m v :
  0 <= m <= 59 ->
  parseStd stdZeroMinute next f (appendInt m 2 ++ v) = Ok (set_min f m, v).
Proof.
  intros H. cbn [parseStd]. rewrite getnum_appendInt by lia.
  destruct (Z.ltb_spec m 0); [lia|]. destruct (Z.leb_spec 60 m); [lia|]. reflexivity.
Qed.

Lemma parseStd_second next f s v :
  0 <= s <= 59 -> startsCommaOrPeriod v = false ->
  parseStd stdZeroSecond next f (appendInt s 2 ++ v) = Ok (set_sec f s, v).
Proof.
  intros H Hv. cbn [parseStd]. rewrite getnum_appendInt by lia.
  destruct (Z.ltb_spec s 0); [lia|]. destruct (Z.leb_spec 60 s); [lia|].
  cbn [orb]. rewrite Hv, andb_false_r. reflexivity.
Qed.

Lemma formatOffset_no_fraction off v :
  startsCommaOrPeriod (formatOffset off ++ v) = false.
Proof. unfold formatOffset. destruct (Z.quot off 60 <? 0); reflexivity. Qed.

Lemma formatZone_no_fraction off v : startsCommaOrPeriod (formatZone off ++ v) = false.
Proof.
  unfold formatZone. destruct (off =? 0); [reflexivity|].
  apply formatOffset_no_fraction.
Qed.

Lemma formatOffset_not_Z off v : byteIs (formatOffset off ++ v) 0 "Z" = false.
Proof. unfold formatOffset. destruct (Z.quot off 60 <? 0); reflexivity. Qed.

Lemma two_digits x : x / 10 * 10 + x mod 10 = x.
Proof. dlia. Qed.

Lemma parseOffset_formatOffset f off :
  Z.abs off < 90000 ->
  parseOffset f (formatOffset off) = Ok (set_zoneOffset f (minutes off), "").
Proof.
  intros H. unfold formatOffset, minutes.
  assert (Hq : Z.abs (Z.quot off 60) = Z.quot (Z.abs off) 60).
  { destruct (Z.le_ge_cases 0 off) as [Hp|Hn].
    - rewrite !Z.abs_eq; auto. apply Z.quot_pos; lia.
    - rewrite (Z.abs_neq off) by lia. rewrite Z.quot_opp_l by lia.
      rewrite Z.abs_neq; [reflexivity|].
      assert (0 <= Z.quot (- off) 60) by (apply Z.quot_pos; lia).
      rewrite <- (Z.opp_involutive off) at 1. rewrite Z.quot_opp_l by lia. lia. }
  assert (Hz : 0 <= Z.abs (Z.quot off 60) < 1500).
  { rewrite Hq. rewrite Z.quot_div_nonneg by lia. dlia. }
  set (zone := Z.abs (Z.quot off 60)) in *.
  rewrite !appendInt_2 by dlia.
  unfold parseOffset.
  destruct (Z.ltb_spec (Z.quot off 60) 0) as [Hneg|Hpos];
    cbn [append byteIs String.get Ascii.eqb Bool.eqb String.length Nat.ltb Nat.leb
         negb take drop];
    rewrite !getnum_two by dlia;
    change (getnum "00" true) with (0, "", @None ParseError);
    cbv beta iota.
  all: rewrite !two_digits; change (60 <? 0) with false; cbv iota.
  all: destruct (Z.ltb_spec 60 (zone mod 60)); [dlia|].
  all: destruct (Z.ltb_spec 24 (zone / 60)); [dlia|].
  all: rewrite finish_ok; do 3 f_equal; subst zone.
  - rewrite Z.abs_neq by lia. dlia.
  - rewrite Z.abs_eq by lia. dlia.
Qed.

Lemma parseZone_formatZone f off :
  Z.abs off < 90000 ->
  parseZone f (formatZone off) =
    Ok (if off =? 0 then set_utc f else set_zoneOffset f (minutes off), "").
Proof.
  intros H. unfold formatZone, parseZone.
  destruct (Z.eqb_spec off 0) as [->|Hne]; [reflexivity|].
  rewrite <- (append_nil_r (formatOffset off)) at 1.
  rewrite formatOffset_not_Z.
  now apply parseOffset_formatOffset.
Qed.


Lemma Format_RFC3339 t :
  Format RFC3339 t =
    appendInt (year t) 4 ++ "-" ++ appendInt (month t) 2 ++ "-"
    ++ appendInt (day t) 2 ++ "T" ++ appendInt (hour t) 2 ++ ":"
    ++ appendInt (minute t) 2 ++ ":" ++ appendInt (second t) 2
    ++ formatZone (offset t).
Proof.
  unfold Format, RFC3339, dateTime.
  cbn [chunks suffix app formatChunks formatStd].
  rewrite !append_nil_r. cbn [append]. reflexivity.
Qed.

Lemma parse_Format_RFC3339 t :
  civil t -> Z.abs (offset t) < 90000 ->
  parse RFC3339 (Format RFC3339 t) = Ok (reread t).
Proof.
  intros (Hy & Hm & Hd & Hh & Hmi & Hs) Hoff.
  assert (Hd' : 1 <= day t <= 31).
  { split; [lia|]. apply Z.le_trans with (1 := proj2 Hd).
    unfold daysIn. destruct ((month t =? 2) && isLeap (year t)); [lia|].
    assert (Hc : month t = 1 \/ month t = 2 \/ month t = 3 \/ month t = 4
                 \/ month t = 5 \/ month t = 6 \/ month t = 7 \/ month t = 8
                 \/ month t = 9 \/ month t = 10 \/ month t = 11 \/ month t = 12)
      by lia.
    repeat (destruct Hc as [Hc|Hc]; [rewrite Hc; simpl; lia|]).
    rewrite Hc; simpl; lia. }
  rewrite Format_RFC3339. unfold parse, RFC3339, dateTime.
  cbn [chunks suffix app parseChunks nextStd].
  change (skip ?v "") with (Ok v : result string ParseError). cbn [bind].
  rewrite parseStd_year by lia. cbn [bind fst snd append].
  change (skip (String "-" ?v) "-") with (Ok v : result string ParseError). cbn [bind].
  rewrite parseStd_month by lia. cbn [bind fst snd append].
  change (skip (String "-" ?v) "-") with (Ok v : result string ParseError). cbn [bind].
  rewrite parseStd_day by lia. cbn [bind fst snd append].
  change (skip (String "T" ?v) "T") with (Ok v : result string ParseError). cbn [bind].
  rewrite parseStd_hour by lia. cbn [bind fst snd append].
  change (skip (String ":" ?v) ":") with (Ok v : result string ParseError). cbn [bind].
  rewrite parseStd_minute by lia. cbn [bind fst snd append].
  change (skip (String ":" ?v) ":") with (Ok v : result string ParseError). cbn [bind].
  rewrite <- (append_nil_r (formatZone (offset t))) at 1.
  rewrite parseStd_second by (lia || apply formatZone_no_fraction).
  cbn [bind fst snd]. rewrite append_nil_r.
  change (skip ?v "") with (Ok v : result string ParseError). cbn [bind parseStd].
  rewrite parseZone_formatZone by lia. cbn [bind fst snd].
  change (skip ?v "") with (Ok v : result string ParseError). cbn [bind].
  unfold build, reread.
  destruct (Z.eqb_spec (offset t) 0) as [E|E];
    cbn [p_year p_month p_day p_hour p_min p_sec p_nsec p_utc p_zoneOffset
         set_year set_month set_day set_hour set_min set_sec set_utc set_zoneOffset
         fields0];
    (destruct (Z.ltb_spec (month t) 0); [lia|]);
    (destruct (Z.ltb_spec (day t) 0); [lia|]);
    (destruct (Z.ltb_spec (day t) 1); [lia|]);
    (destruct (Z.ltb_spec (daysIn (month t) (year t)) (day t)); [lia|]);
    cbn [orb].
  - rewrite E. reflexivity.
  - destruct (Z.eqb_spec (minutes (offset t)) (-1)) as [E1|E1];
      [unfold minutes in E1; lia | reflexivity].
Qed.

End ParseFormat.

(** ** What [Parse] can return *)

Section Parsed.
Import time props.

Lemma isDigitByte_range c :
  isDigitByte c = true -> 0 <= code c - code "0" <= 9.
Proof.
  unfold isDigitByte. rewrite andb_true_iff, !Z.leb_le.
  change (code "0") with 48. change (code "9") with 57. lia.
Qed.

Lemma isDigitByte_not c d :
  isDigitByte c = true -> isDigitByte d = false -> Ascii.eqb c d = false.
Proof.
  intros Hc Hd. destruct (Ascii.eqb_spec c d); [congruence | reflexivity].
Qed.

Lemma getnum_range s fixed n s' :
  getnum s fixed = (n, s', None) -> 0 <= n <= 99.
Proof.
  unfold getnum, isDigit, digitAt.
  destruct (String.get 0 s) as [c0|]; cbn [negb]; [|discriminate].
  destruct (isDigitByte c0) eqn:H0; cbn [negb]; [|discriminate].
  apply isDigitByte_range in H0.
  destruct (String.get 1 s) as [c1|]; cbn [negb].
  - destruct (isDigitByte c1) eqn:H1; cbn [negb].
    + apply isDigitByte_range in H1. intros E. inversion E. lia.
    + destruct fixed; [discriminate|]. intros E. inversion E. lia.
  - destruct fixed; [discriminate|]. intros E. inversion E. lia.
Qed.

Lemma getnum_error_zero s fixed n s' e :
  getnum s fixed = (n, s', Some e) -> n = 0.
Proof.
  unfold getnum.
  destruct (negb (isDigit s 0)); [intros E; inversion E; reflexivity|].
  destruct (negb (isDigit s 1)); [destruct fixed|]; intros E; inversion E; reflexivity.
Qed.

Lemma finish_inv f v r e f' v' :
  finish f v r e = Ok (f', v') -> r = None /\ e = None /\ f' = f /\ v' = v.
Proof.
  unfold finish. destruct r; [discriminate|]. destruct e; [discriminate|].
  intros E. inversion E. auto.
Qed.

Lemma leadingInt_loop_inv x c s q :
  leadingInt_loop x (String c s) = Ok (q, "") ->
  isDigitByte c = true
  /\ leadingInt_loop (x * 10 + (code c - code "0")) s = Ok (q, "").
Proof.
  cbn [leadingInt_loop]. destruct (isDigitByte c); [|discriminate].
  destruct (2 ^ 63 / 10 <? x); [discriminate|].
  destruct (2 ^ 63 <? x * 10 + (code c - code "0")); [discriminate|]. auto.
Qed.

Lemma atoi_year value y :
  (String.length value <? 4)%nat = false -> isDigit value 0 = true ->
  atoi (take 4 value) = Ok y -> 0 <= y <= 9999.
Proof.
  intros Hlen H0 Hy.
  destruct value as [|c0 [|c1 [|c2 [|c3 v]]]]; try discriminate.
  cbn [take] in Hy. unfold isDigit in H0. cbn [String.get] in H0.
  unfold atoi, byteIs in Hy. cbn [String.get] in Hy.
  rewrite (isDigitByte_not c0 "-" H0 eq_refl),
          (isDigitByte_not c0 "+" H0 eq_refl) in Hy.
  cbn [orb] in Hy. unfold leadingInt in Hy.
  destruct (leadingInt_loop 0 _) as [[q r]|] eqn:L; [|discriminate].
  destruct r; [|discriminate]. inversion Hy; subst y.
  apply leadingInt_loop_inv in L. destruct L as [D0 L].
  apply leadingInt_loop_inv in L. destruct L as [D1 L].
  apply leadingInt_loop_inv in L. destruct L as [D2 L].
  apply leadingInt_loop_inv in L. destruct L as [D3 L].
  cbn [leadingInt_loop] in L. inversion L.
  apply isDigitByte_range in D0, D1, D2, D3. lia.
Qed.

Lemma parseOffset_ok f v f' v' :
  fields_ok f -> parseOffset f v = Ok (f', v') -> fields_ok f'.
Proof.
  intros Hf. unfold parseOffset.
  destruct (String.length v <? 6)%nat; [discriminate|].
  destruct (negb (byteIs v 3 ":")); [discriminate|].
  destruct (getnum (take 2 (drop 1 v)) true) as [[hr v1] e1] eqn:G1.
  destruct e1 as [e1|].
  { destruct (byteIs (take 1 v) 0 "+"); [|destruct (byteIs (take 1 v) 0 "-")];
      intros E; apply finish_inv in E; destruct E as (_ & E & _); discriminate. }
  destruct (getnum (take 2 (drop 4 v)) true) as [[mm v2] e2] eqn:G2.
  destruct e2 as [e2|].
  { destruct (byteIs (take 1 v) 0 "+"); [|destruct (byteIs (take 1 v) 0 "-")];
      intros E; apply finish_inv in E; destruct E as (_ & E & _); discriminate. }
  change (getnum "00" true) with (0, "", @None ParseError). cbv beta iota.
  apply getnum_range in G1, G2.
  change (60 <? 0) with false. cbv iota.
  destruct (Z.ltb_spec 60 mm).
  { destruct (byteIs (take 1 v) 0 "+"); [|destruct (byteIs (take 1 v) 0 "-")];
      intros E; apply finish_inv in E; destruct E as (E & _); discriminate. }
  destruct (Z.ltb_spec 24 hr).
  { destruct (byteIs (take 1 v) 0 "+"); [|destruct (byteIs (take 1 v) 0 "-")];
      intros E; apply finish_inv in E; destruct E as (E & _); discriminate. }
  destruct Hf as (Hy & Hm & Hd & Hh & Hmi & Hs & _).
  destruct (byteIs (take 1 v) 0 "+"); [|destruct (byteIs (take 1 v) 0 "-")];
    intros E; apply finish_inv in E; destruct E as (_ & E & -> & _);
    try discriminate;
    unfold fields_ok; cbn [set_zoneOffset p_year p_month p_day p_hour p_min p_sec
                           p_zoneOffset];
    repeat split; try assumption; try lia; right; split; dlia.
Qed.

Lemma parseZone_ok f v f' v' :
  fields_ok f -> parseZone f v = Ok (f', v') -> fields_ok f'.
Proof.
  intros Hf. unfold parseZone.
  destruct (byteIs v 0 "Z").
  - intros E. inversion E. exact Hf.
  - now apply parseOffset_ok.
Qed.

Lemma parseStd_ok s next f v f' v' :
  fields_ok f -> parseStd s next f v = Ok (f', v') -> fields_ok f'.
Proof.
  intros Hf. pose proof Hf as (Hy & Hm & Hd & Hh & Hmi & Hs & Hz).
  destruct s; cbn [parseStd].
  - (* year *)
    destruct (String.length v <? 4)%nat eqn:Hlen; cbn [orb]; [discriminate|].
    destruct (isDigit v 0) eqn:H0; cbn [negb]; [|discriminate].
    destruct (atoi (take 4 v)) as [y|] eqn:A; cbn [bind]; [|discriminate].
    intros E. inversion E. apply (atoi_year v y Hlen H0) in A.
    unfold fields_ok. cbn. auto 10.
  - (* month *)
    destruct (getnum v true) as [[m v1] e] eqn:G.
    intros E. apply finish_inv in E. destruct E as (R & -> & -> & _).
    destruct (Z.leb_spec m 0); cbn [orb] in R; [discriminate|].
    destruct (Z.ltb_spec 12 m); [discriminate|].
    unfold fields_ok. cbn. repeat split; auto; lia.
  - (* day *)
    destruct (getnum v true) as [[d v1] e] eqn:G.
    intros E. apply finish_inv in E. destruct E as (_ & -> & -> & _).
    apply getnum_range in G.
    unfold fields_ok. cbn. repeat split; auto; lia.
  - (* hour *)
    destruct (getnum v false) as [[h v1] e] eqn:G.
    intros E. apply finish_inv in E. destruct E as (R & -> & -> & _).
    destruct (Z.ltb_spec h 0); cbn [orb] in R; [discriminate|].
    destruct (Z.leb_spec 24 h); [discriminate|].
    unfold fields_ok. cbn. repeat split; auto; lia.
  - (* minute *)
    destruct (getnum v true) as [[m v1] e] eqn:G.
    intros E. apply finish_inv in E. destruct E as (R & -> & -> & _).
    destruct (Z.ltb_spec m 0); cbn [orb] in R; [discriminate|].
    destruct (Z.leb_spec 60 m); [discriminate|].
    unfold fields_ok. cbn. repeat split; auto; lia.
  - (* second *)
    destruct (getnum v true) as [[sec v1] e] eqn:G.
    destruct e; [discriminate|].
    destruct (Z.ltb_spec sec 0); cbn [orb]; [discriminate|].
    destruct (Z.leb_spec 60 sec); [discriminate|].
    assert (Hsec : fields_ok (set_sec f sec)).
    { unfold fields_ok. cbn. repeat split; auto; lia. }
    destruct (_ && _).
    + destruct (parseNanoseconds v1 _) as [[ns r] e].
      intros E. apply finish_inv in E. destruct E as (_ & _ & -> & _).
      exact Hsec.
    + intros E. inversion E. subst. exact Hsec.
  - (* zone *)
    apply parseZone_ok. exact Hf.
  - (* offset *)
    apply parseOffset_ok. exact Hf.
  - (* fraction, required *)
    destruct (String.length v <? S digits)%nat; [discriminate|].
    destruct (parseNanoseconds v _) as [[ns r] e].
    intros E. apply finish_inv in E. destruct E as (_ & _ & -> & _). exact Hf.
  - (* fraction, optional *)
    destruct (_ || _).
    + intros E. inversion E. subst. exact Hf.
    + destruct (parseNanoseconds v _) as [[ns r] e].
      intros E. apply finish_inv in E. destruct E as (_ & _ & -> & _). exact Hf.
Qed.

Lemma parseChunks_ok l tail f v f' :
  fields_ok f -> parseChunks l tail f v = Ok f' -> fields_ok f'.
Proof.
  revert f v. induction l as [|[prefix s] l IH]; intros f v Hf; cbn [parseChunks].
  - destruct (skip v tail) as [v'|]; cbn [bind]; [|discriminate].
    destruct v'; [|discriminate]. intros E. inversion E. subst. exact Hf.
  - destruct (skip v prefix) as [v'|]; cbn [bind]; [|discriminate].
    destruct (parseStd s (nextStd l) f v') as [[f1 v1]|] eqn:P; cbn [bind];
      [|discriminate].
    cbn [fst snd]. apply IH. eapply parseStd_ok; eauto.
Qed.

Lemma fields0_ok : fields_ok fields0.
Proof. unfold fields_ok. cbn. lia. Qed.

Lemma build_parsed f t : fields_ok f -> build f = Ok t -> parsed t.
Proof.
  intros (Hy & Hm & Hd & Hh & Hmi & Hs & Hz). unfold build.
  set (m := if p_month f <? 0 then 1 else p_month f).
  set (d := if p_day f <? 0 then 1 else p_day f).
  assert (Hm' : 1 <= m <= 12).
  { subst m. destruct (Z.ltb_spec (p_month f) 0); lia. }
  destruct (Z.ltb_spec d 1); cbn [orb]; [discriminate|].
  destruct (Z.ltb_spec (daysIn m (p_year f)) d); [discriminate|].
  intros E. inversion E. unfold parsed, civil. cbn.
  repeat split; try lia.
  - destruct (p_utc f); [reflexivity|].
    destruct (Z.eqb_spec (p_zoneOffset f) (-1)); cbn [negb]; [reflexivity|].
    destruct Hz as [Hz|[Hz _]]; [contradiction | exact Hz].
  - destruct (p_utc f); [cbn; lia|].
    destruct (Z.eqb_spec (p_zoneOffset f) (-1)); cbn [negb]; [cbn; lia|].
    destruct Hz as [Hz|[_ Hz]]; [contradiction | exact Hz].
Qed.

Lemma parse_parsed layout value t : parse layout value = Ok t -> parsed t.
Proof.
  unfold parse.
  destruct (parseChunks _ _ _ _) as [f|] eqn:P; cbn [bind]; [|discriminate].
  apply build_parsed. eapply parseChunks_ok; [apply fields0_ok | exact P].
Qed.

Lemma Parse_parsed layout value t : Parse layout value = (t, None) -> parsed t.
Proof.
  unfold Parse. destruct (parse layout value) eqn:P; [|discriminate].
  intros E. inversion E. subst. eapply parse_parsed; eauto.
Qed.

Lemma ParseTimestamp_parsed timestamp t :
  utils.ParseTimestamp timestamp = (t, None) -> parsed t.
Proof.
  intros H. apply tryFormats_ok in H.
  destruct H as [(_ & H & _) | (i & f & _ & H & _)]; [discriminate|].
  eapply Parse_parsed; eauto.
Qed.

End Parsed.

(** ** Identifiers *)

Section UUID.

Lemma xtob_hex (b : ascii) :
  uuid.xtob (uuid.hexdigit (code b / 16)) (uuid.hexdigit (code b mod 16)) = (b, true).
Proof.
  destruct b as [[] [] [] [] [] [] [] []]; vm_compute; reflexivity.
Qed.

(** [Parse] reads back what [String] wrote. *)
Lemma Parse_String (u : uuid.UUID) : uuid.Parse (uuid.String u) = Ok u.
Proof.
  destruct u. unfold uuid.Parse, uuid.String, uuid.hex.
  cbn [append uuid.b0 uuid.b1 uuid.b2 uuid.b3 uuid.b4 uuid.b5 uuid.b6 uuid.b7
       uuid.b8 uuid.b9 uuid.b10 uuid.b11 uuid.b12 uuid.b13 uuid.b14 uuid.b15
       String.length Nat.eqb].
  unfold uuid.parseDashed, byteIs.
  cbn [String.get Ascii.eqb Bool.eqb negb orb uuid.xtobAll uuid.xtobAt].
  rewrite !xtob_hex. reflexivity.
Qed.

End UUID.

(** ** The table *)

Section Table.
Import props.

Lemma length_from_le lead s : sqlite.length_from lead s <= len s.
Proof.
  unfold len. revert lead. induction s as [|c s IH]; intros lead.
  - simpl. lia.
  - cbn [sqlite.length_from String.length].
    destruct (lead && _).
    + specialize (IH true). lia.
    + destruct (code c =? 0); [lia|].
      specialize (IH (192 <=? code c)). lia.
Qed.

(** A text has no more characters than bytes. *)
Lemma length_le_len s : sqlite.length s <= len s.
Proof. apply length_from_le. Qed.

Lemma length_from_nonneg lead s : 0 <= sqlite.length_from lead s.
Proof.
  revert lead. induction s as [|c s IH]; intros lead; cbn [sqlite.length_from].
  - lia.
  - destruct (lead && _); [apply IH|].
    destruct (code c =? 0); [lia|]. specialize (IH (192 <=? code c)). lia.
Qed.

Lemma existsb_has_id i (t : sqlite.Table) :
  existsb (sqlite.has_id i) t = true <-> In i (ids t).
Proof.
  unfold ids. rewrite existsb_exists, in_map_iff. unfold sqlite.has_id.
  split; intros (r & H1 & H2).
  - exists r. apply String.eqb_eq in H2. auto.
  - exists r. subst. split; [auto | apply String.eqb_refl].
Qed.

Lemma not_existsb_has_id i (t : sqlite.Table) :
  existsb (sqlite.has_id i) t = false <-> ~ In i (ids t).
Proof.
  rewrite <- existsb_has_id. destruct (existsb _ t); split; congruence.
Qed.

Lemma filter_has_id_none i (t : sqlite.Table) :
  ~ In i (ids t) -> filter (sqlite.has_id i) t = [].
Proof.
  induction t as [|r t IH]; intros H; [reflexivity|]. simpl in *.
  unfold sqlite.has_id at 1. destruct (String.eqb_spec (sqlite.id r) i).
  - exfalso. auto.
  - apply IH. auto.
Qed.

Lemma filter_not_has_id_all i (t : sqlite.Table) :
  ~ In i (ids t) -> filter (fun r => negb (sqlite.has_id i r)) t = t.
Proof.
  induction t as [|r t IH]; intros H; [reflexivity|]. simpl in *.
  unfold sqlite.has_id at 1. destruct (String.eqb_spec (sqlite.id r) i).
  - exfalso. auto.
  - cbn [negb]. f_equal. apply IH. auto.
Qed.

Lemma count_none i (t : sqlite.Table) : ~ In i (ids t) -> sqlite.count i t = 0.
Proof. intros H. unfold sqlite.count. now rewrite filter_has_id_none. Qed.

Lemma count_zero i (t : sqlite.Table) : sqlite.count i t = 0 <-> ~ In i (ids t).
Proof.
  split; [|apply count_none].
  intros H Hin. apply existsb_has_id in Hin. apply existsb_exists in Hin.
  destruct Hin as (r & Hr & Hid).
  assert (Hf : In r (filter (sqlite.has_id i) t)) by (apply filter_In; auto).
  unfold sqlite.count in H. destruct (filter _ t); [destruct Hf | discriminate].
Qed.

(** Under the primary key the row with a given identifier stands alone. *)
Lemma primary_key_split i (t : sqlite.Table) :
  primary_key t -> In i (ids t) ->
  exists l1 r l2, t = (l1 ++ r :: l2)%list /\ sqlite.id r = i
                  /\ ~ In i (ids l1) /\ ~ In i (ids l2).
Proof.
  unfold primary_key, ids. intros Hpk Hin.
  apply in_map_iff in Hin. destruct Hin as (r & Hid & Hin).
  apply in_split in Hin. destruct Hin as (l1 & l2 & ->).
  exists l1, r, l2. repeat split; auto.
  - rewrite map_app in Hpk. cbn [map] in Hpk. apply NoDup_remove_2 in Hpk.
    rewrite Hid in Hpk. intros H. apply Hpk. apply in_or_app. auto.
  - rewrite map_app in Hpk. cbn [map] in Hpk. apply NoDup_remove_2 in Hpk.
    rewrite Hid in Hpk. intros H. apply Hpk. apply in_or_app. auto.
Qed.

Lemma count_one i l1 r l2 :
  sqlite.id r = i -> ~ In i (ids l1) -> ~ In i (ids l2) ->
  sqlite.count i (l1 ++ r :: l2)%list = 1.
Proof.
  intros Hr H1 H2. unfold sqlite.count. rewrite filter_app. cbn [filter].
  rewrite (@filter_has_id_none i l1), (@filter_has_id_none i l2) by assumption.
  unfold sqlite.has_id. rewrite Hr, String.eqb_refl. reflexivity.
Qed.

Lemma map_other i (f : sqlite.Row -> sqlite.Row) (t : sqlite.Table) :
  ~ In i (ids t) -> map (fun r => if sqlite.has_id i r then f r else r) t = t.
Proof.
  induction t as [|r t IH]; intros H; [reflexivity|]. simpl in *.
  unfold sqlite.has_id at 1. destruct (String.eqb_spec (sqlite.id r) i).
  - exfalso. auto.
  - f_equal. apply IH. auto.
Qed.

Lemma find_last i (t : sqlite.Table) r :
  ~ In i (ids t) -> sqlite.id r = i ->
  sqlite.select_by_id (t ++ [r])%list i = Some r.
Proof.
  intros H Hr. unfold sqlite.select_by_id.
  induction t as [|x t IH]; simpl in *.
  - unfold sqlite.has_id. now rewrite Hr, String.eqb_refl.
  - unfold sqlite.has_id at 1. destruct (String.eqb_spec (sqlite.id x) i).
    + exfalso. auto.
    + apply IH. auto.
Qed.

End Table.

(** ** The repository *)

Section Repository.
Import models props repository.

Lemma UUID_eqb_eq u v : uuid.UUID_eqb u v = true <-> u = v.
Proof.
  destruct u, v. unfold uuid.UUID_eqb. cbn.
  rewrite !andb_true_iff, !Ascii.eqb_eq. split.
  - intros H. decompose [and] H. subst. reflexivity.
  - intros H. inversion H. repeat split.
Qed.

(** The event as [InsertEvent] leaves it. *)
Lemma InsertEvent_event env db ev :
  let '(_, ev', _) := InsertEvent env db ev in
  Event.ID ev' = (if uuid.UUID_eqb (Event.ID ev) uuid.Nil
                  then uuid_New env else Event.ID ev)
  /\ Event.CreatedAt ev' = (if time.IsZero (Event.CreatedAt ev)
                            then time_Now env else Event.CreatedAt ev)
  /\ Event.Title ev' = Event.Title ev
  /\ Event.Description ev' = Event.Description ev
  /\ Event.StartTime ev' = Event.StartTime ev
  /\ Event.EndTime ev' = Event.EndTime ev.
Proof.
  unfold InsertEvent.
  destruct (sqlite.insert _ _);
    destruct (uuid.UUID_eqb _ _); cbn;
    destruct (time.IsZero _); cbn; auto 10.
Qed.

Lemma insert_result (t : sqlite.Table) r :
  sqlite.insert t r =
    if negb (sqlite.length (sqlite.title r) <=? 100) then Err sqlite.ConstraintCheck
    else if existsb (sqlite.has_id (sqlite.id r)) t then Err sqlite.ConstraintPrimaryKey
    else Ok (t ++ [r])%list.
Proof. reflexivity. Qed.

Lemma primary_key_insert (t t' : sqlite.Table) r :
  primary_key t -> sqlite.insert t r = Ok t' -> primary_key t'.
Proof.
  unfold primary_key. rewrite insert_result.
  destruct (negb _); [discriminate|].
  destruct (existsb _ t) eqn:E; [discriminate|].
  intros Hpk H. inversion H. subst. rewrite map_app. cbn [map].
  apply not_existsb_has_id in E.
  apply (NoDup_Add (Add_app (sqlite.id r) (map sqlite.id t) [])).
  rewrite app_nil_r. auto.
Qed.

End Repository.

(** C7.  [InsertEvent] of an event whose title has at most 100 characters
    appends its row when no row has the identifier, and otherwise leaves the
    table as it was and fails with the driver's primary-key error wrapped in
    "failed to insert event".  (A longer title is refused by the CHECK
    constraint of the table, whatever the identifier.) *)
Theorem InsertEvent_primary_key :
  forall (env : repository.Env) (db : repository.Database) (ev : models.Event.T),
    sqlite.length (models.Event.Title ev) <= 100 ->
    let '(db', ev', err) := repository.InsertEvent env db ev in
    (~ In (uuid.String (models.Event.ID ev')) (props.ids db) ->
     db' = (db ++ [repository.row_of ev'])%list /\ err = None)
    /\ (In (uuid.String (models.Event.ID ev')) (props.ids db) ->
        db' = db
        /\ err = Some (repository.Wrapf "failed to insert event"
                         (repository.DriverError sqlite.ConstraintPrimaryKey))).
Proof.
  intros env db ev Hlen. unfold repository.InsertEvent.
  set (ev1 := if uuid.UUID_eqb _ _ then _ else ev).
  set (ev2 := if time.IsZero _ then _ else ev1).
  assert (Ht : models.Event.Title ev2 = models.Event.Title ev).
  { subst ev2 ev1. destruct (uuid.UUID_eqb _ _); cbn;
      destruct (time.IsZero _); reflexivity. }
  rewrite insert_result. cbn [repository.row_of sqlite.title sqlite.id].
  rewrite Ht. destruct (Z.leb_spec (sqlite.length (models.Event.Title ev)) 100);
    [|lia]. cbn [negb].
  destruct (existsb _ db) eqn:E.
  - apply existsb_has_id in E. split; [contradiction | auto].
  - apply not_existsb_has_id in E. split; [auto | contradiction].
Qed.

Lemma InsertEvent_primary_key_witness :
  let '(db', ev', err) :=
    repository.InsertEvent examples.env1 examples.one_row examples.short_event in
  (~ In (uuid.String (models.Event.ID ev')) (props.ids examples.one_row) ->
   db' = (examples.one_row ++ [repository.row_of ev'])%list /\ err = None)
  /\ (In (uuid.String (models.Event.ID ev')) (props.ids examples.one_row) ->
      db' = examples.one_row
      /\ err = Some (repository.Wrapf "failed to insert event"
                       (repository.DriverError sqlite.ConstraintPrimaryKey))).
Proof.
  apply (InsertEvent_primary_key examples.env1 examples.one_row examples.short_event).
  vm_compute. discriminate.
Defined.

(** The claim C7 as it was stated fails on an event with a fresh identifier
    and a title of 101 letters: no row has the identifier, and [InsertEvent]
    fails and appends nothing. *)
Lemma InsertEvent_fails_without_collision :
  ~ (let '(db', ev', err) :=
       repository.InsertEvent examples.env1 [] examples.long_event in
     (~ In (uuid.String (models.Event.ID ev')) (props.ids []) ->
      db' = ([] ++ [repository.row_of ev'])%list /\ err = None)
     /\ (In (uuid.String (models.Event.ID ev')) (props.ids []) ->
         db' = [] /\ err <> None)).
Proof.
  vm_compute. intros [H _]. destruct H as [H _]; [tauto | discriminate].
Qed.

Section UpdateDelete.
Import models props repository.

Lemma update_result (t : sqlite.Table) new :
  sqlite.update t new =
    if sqlite.count (sqlite.id new) t =? 0 then Ok (t, 0)
    else if negb (sqlite.check new) then Err sqlite.ConstraintCheck
    else Ok (map (fun r =>
                    if sqlite.has_id (sqlite.id new) r
                    then sqlite.mkRow (sqlite.id r) (sqlite.title new)
                           (sqlite.description new) (sqlite.start_time new)
                           (sqlite.end_time new) (sqlite.created_at r)
                    else r) t,
             sqlite.count (sqlite.id new) t).
Proof. reflexivity. Qed.

Lemma map_split i f l1 (r : sqlite.Row) l2 :
  sqlite.id r = i -> ~ In i (ids l1) -> ~ In i (ids l2) ->
  map (fun x => if sqlite.has_id i x then f x else x) (l1 ++ r :: l2)%list
  = (l1 ++ f r :: l2)%list.
Proof.
  intros Hr H1 H2. rewrite map_app. cbn [map].
  rewrite (@map_other i f l1), (@map_other i f l2) by assumption.
  unfold sqlite.has_id. now rewrite Hr, String.eqb_refl.
Qed.

Lemma filter_split i l1 (r : sqlite.Row) l2 :
  sqlite.id r = i -> ~ In i (ids l1) -> ~ In i (ids l2) ->
  filter (fun x => negb (sqlite.has_id i x)) (l1 ++ r :: l2)%list = (l1 ++ l2)%list.
Proof.
  intros Hr H1 H2. rewrite filter_app. cbn [filter].
  rewrite (@filter_not_has_id_all i l1), (@filter_not_has_id_all i l2) by assumption.
  unfold sqlite.has_id. now rewrite Hr, String.eqb_refl.
Qed.

(** The operations keep the primary key. *)
Lemma primary_key_update (t t' : sqlite.Table) new n :
  primary_key t -> sqlite.update t new = Ok (t', n) -> primary_key t'.
Proof.
  unfold primary_key. rewrite update_result.
  destruct (_ =? 0); [intros H E; inversion E; subst; exact H|].
  destruct (negb _); [discriminate|].
  intros H E. inversion E. subst. rewrite map_map.
  erewrite map_ext; [exact H|].
  intros r. destruct (sqlite.has_id _ r); reflexivity.
Qed.

Lemma primary_key_delete (t : sqlite.Table) i :
  primary_key t -> primary_key (fst (sqlite.delete t i)).
Proof.
  unfold primary_key, sqlite.delete. cbn [fst].
  induction t as [|r t IH]; intros H; cbn [filter map]; [constructor|].
  inversion H; subst.
  destruct (negb (sqlite.has_id i r)); [|auto].
  cbn [map]. constructor; [|auto].
  intros Hin. apply H2. apply in_map_iff in Hin. destruct Hin as (x & Hx & Hin).
  apply filter_In in Hin. apply in_map_iff. exists x. tauto.
Qed.

Lemma reachable_primary_key db : reachable db -> primary_key db.
Proof.
  induction 1 as [|env db ev _ IH|db ev _ IH|db id _ IH].
  - constructor.
  - unfold InsertEvent.
    destruct (sqlite.insert db _) as [db'|] eqn:E; cbn [fst]; [|exact IH].
    eapply primary_key_insert; eauto.
  - unfold UpdateEvent.
    destruct (sqlite.update db _) as [[db' n]|] eqn:E; [|exact IH].
    assert (primary_key db') by (eapply primary_key_update; eauto).
    destruct (n =? 0); assumption.
  - unfold DeleteEvent.
    pose proof (primary_key_delete db (uuid.String id) IH) as H.
    destruct (sqlite.delete db (uuid.String id)) as [db' n]. cbn [fst] in H.
    destruct (n =? 0); assumption.
Qed.

End UpdateDelete.

(** C8.  In a table with its primary key, [UpdateEvent] and [DeleteEvent]
    fail with "event not found" exactly when no row has the identifier; when
    they succeed one row was affected, the row with the identifier, which
    [UpdateEvent] rewrites (but for its identifier and creation time) and
    [DeleteEvent] removes, and the rows around it are as before; when they fail
    the table is as before. *)
Theorem UpdateEvent_DeleteEvent_not_found :
  forall db : repository.Database,
    props.primary_key db ->
    (forall ev : models.Event.T,
        let '(db', err) := repository.UpdateEvent db ev in
        (err = Some (repository.Errorf "event not found")
         <-> ~ In (uuid.String (models.Event.ID ev)) (props.ids db))
        /\ (err = None ->
            exists l1 r l2,
              db = (l1 ++ r :: l2)%list
              /\ sqlite.id r = uuid.String (models.Event.ID ev)
              /\ db' = (l1 ++ sqlite.mkRow (sqlite.id r) (models.Event.Title ev)
                                 (models.Event.Description ev)
                                 (time.Format time.RFC3339 (models.Event.StartTime ev))
                                 (time.Format time.RFC3339 (models.Event.EndTime ev))
                                 (sqlite.created_at r) :: l2)%list
              /\ sqlite.update db (repository.row_of ev) = Ok (db', 1))
        /\ (err <> None -> db' = db))
    /\ (forall id : uuid.UUID,
           let '(db', err) := repository.DeleteEvent db id in
           (err = Some (repository.Errorf "event not found")
            <-> ~ In (uuid.String id) (props.ids db))
           /\ (err = None ->
               exists l1 r l2,
                 db = (l1 ++ r :: l2)%list
                 /\ sqlite.id r = uuid.String id
                 /\ db' = (l1 ++ l2)%list
                 /\ sqlite.delete db (uuid.String id) = (db', 1))
           /\ (err <> None -> db' = db)).
Proof.
  intros db Hpk. split.
  - intros ev. unfold repository.UpdateEvent. rewrite update_result.
    cbn [repository.row_of sqlite.id sqlite.title sqlite.description
         sqlite.start_time sqlite.end_time].
    set (i := uuid.String (models.Event.ID ev)).
    destruct (Z.eqb_spec (sqlite.count i db) 0) as [E|E].
    + cbn [Z.eqb]. apply count_zero in E.
      repeat split; auto; try discriminate.
    + assert (Hin : In i (props.ids db)).
      { destruct (in_dec string_dec i (props.ids db)) as [H|H]; [exact H|].
        apply count_none in H. contradiction. }
      destruct (@primary_key_split i db) as (l1 & r & l2 & -> & Hr & H1 & H2);
        [assumption | assumption |].
      rewrite count_one by assumption. rewrite map_split by assumption.
      destruct (negb _).
      * repeat split; auto; try discriminate. intros H. contradiction.
      * cbn [Z.eqb]. repeat split; auto; try discriminate; try contradiction.
        intros _. exists l1, r, l2. auto.
  - intros id. unfold repository.DeleteEvent, sqlite.delete.
    set (i := uuid.String id).
    destruct (Z.eqb_spec (sqlite.count i db) 0) as [E|E].
    + pose proof E as E'. apply count_zero in E'.
      rewrite filter_not_has_id_all by assumption.
      repeat split; auto; try discriminate.
    + assert (Hin : In i (props.ids db)).
      { destruct (in_dec string_dec i (props.ids db)) as [H|H]; [exact H|].
        apply count_none in H. contradiction. }
      destruct (@primary_key_split i db) as (l1 & r & l2 & -> & Hr & H1 & H2);
        [assumption | assumption |].
      rewrite filter_split by assumption.
      repeat split; auto; try discriminate; try contradiction.
      intros _. exists l1, r, l2. rewrite count_one by assumption. auto.
Qed.

Lemma UpdateEvent_DeleteEvent_not_found_witness :
  let '(db', err) := repository.DeleteEvent examples.one_row examples.id1 in
  (err = Some (repository.Errorf "event not found")
   <-> ~ In (uuid.String examples.id1) (props.ids examples.one_row))
  /\ (err = None ->
      exists l1 r l2,
        examples.one_row = (l1 ++ r :: l2)%list
        /\ sqlite.id r = uuid.String examples.id1
        /\ db' = (l1 ++ l2)%list
        /\ sqlite.delete examples.one_row (uuid.String examples.id1) = (db', 1))
  /\ (err <> None -> db' = examples.one_row).
Proof.
  refine (proj2 (UpdateEvent_DeleteEvent_not_found examples.one_row _)
                examples.id1).
  unfold props.primary_key. vm_compute. constructor; [intros [] | constructor].
Defined.

(** ** Creating and fetching *)

Lemma whole_second_instant t :
  time.absSec (props.whole_second t) = time.absSec t
  /\ time.nsec (props.whole_second t) = 0.
Proof. split; reflexivity. Qed.

Lemma whole_second_same t :
  time.nsec t = 0 -> props.whole_second t = t.
Proof. destruct t. cbn. intros ->. reflexivity. Qed.

Lemma reread_parsed t : props.parsed t -> props.reread t = props.whole_second t.
Proof.
  intros (_ & Hm & _). unfold props.reread, props.whole_second, props.minutes. f_equal.
  Z.to_euclidean_division_equations. lia.
Qed.

(** Without a fraction of a second the two layouts print the same text. *)
Lemma Format_no_fraction t :
  time.nsec t = 0 -> time.Format time.RFC3339Nano t = time.Format time.RFC3339 t.
Proof.
  intros H. unfold time.Format, time.RFC3339Nano, time.RFC3339, time.dateTime.
  cbn [time.chunks time.suffix app time.formatChunks time.formatStd].
  rewrite H. reflexivity.
Qed.

(** *** What the driver makes of a text the repository wrote *)

Lemma civil_day t : props.civil t -> 1 <= time.day t <= 31.
Proof.
  intros (_ & Hm & Hd & _). split; [lia|].
  apply Z.le_trans with (1 := proj2 Hd).
  unfold time.daysIn. destruct ((time.month t =? 2) && time.isLeap (time.year t)); [lia|].
  assert (Hc : time.month t = 1 \/ time.month t = 2 \/ time.month t = 3
               \/ time.month t = 4 \/ time.month t = 5 \/ time.month t = 6
               \/ time.month t = 7 \/ time.month t = 8 \/ time.month t = 9
               \/ time.month t = 10 \/ time.month t = 11 \/ time.month t = 12)
    by lia.
  repeat (destruct Hc as [Hc|Hc]; [rewrite Hc; simpl; lia|]).
  rewrite Hc; simpl; lia.
Qed.

Lemma Format_clockText t :
  time.Format time.RFC3339 t = props.clockText t ++ time.formatZone (time.offset t).
Proof.
  rewrite Format_RFC3339. unfold props.clockText.
  rewrite !append_assoc. reflexivity.
Qed.

(** The layouts with a [T] read the date and the clock. *)
Lemma parseChunks_clockText rest tail t v :
  props.civil t -> time.startsCommaOrPeriod v = false ->
  time.parseChunks (time.dateTime "T" ++ rest) tail time.fields0 (props.clockText t ++ v)
  = time.parseChunks rest tail (props.fieldsOf t) v.
Proof.
  intros Hc Hv. pose proof (civil_day t Hc) as Hd'.
  destruct Hc as (Hy & Hm & Hd & Hh & Hmi & Hs).
  unfold props.clockText, time.dateTime. rewrite !append_assoc.
  cbn [app time.parseChunks time.nextStd].
  change (time.skip ?x "") with (Ok x : result string time.ParseError). cbn [bind].
  rewrite parseStd_year by lia. cbn [bind fst snd append].
  change (time.skip (String "-" ?x) "-") with (Ok x : result string time.ParseError).
  cbn [bind].
  rewrite parseStd_month by lia. cbn [bind fst snd append].
  change (time.skip (String "-" ?x) "-") with (Ok x : result string time.ParseError).
  cbn [bind].
  rewrite parseStd_day by lia. cbn [bind fst snd append].
  change (time.skip (String "T" ?x) "T") with (Ok x : result string time.ParseError).
  cbn [bind].
  rewrite parseStd_hour by lia. cbn [bind fst snd append].
  change (time.skip (String ":" ?x) ":") with (Ok x : result string time.ParseError).
  cbn [bind].
  rewrite parseStd_minute by lia. cbn [bind fst snd append].
  change (time.skip (String ":" ?x) ":") with (Ok x : result string time.ParseError).
  cbn [bind].
  rewrite parseStd_second by assumption. cbn [bind fst snd].
  reflexivity.
Qed.

(** The layouts with a space stop at the [T]. *)
Lemma parseChunks_space rest tail t v :
  props.civil t ->
  time.parseChunks (time.dateTime " " ++ rest) tail time.fields0 (props.clockText t ++ v)
  = Err time.errBad.
Proof.
  intros Hc. pose proof (civil_day t Hc) as Hd'.
  destruct Hc as (Hy & Hm & Hd & Hh & Hmi & Hs).
  unfold props.clockText, time.dateTime. rewrite !append_assoc.
  cbn [app time.parseChunks time.nextStd].
  change (time.skip ?x "") with (Ok x : result string time.ParseError). cbn [bind].
  rewrite parseStd_year by lia. cbn [bind fst snd append].
  change (time.skip (String "-" ?x) "-") with (Ok x : result string time.ParseError).
  cbn [bind].
  rewrite parseStd_month by lia. cbn [bind fst snd append].
  change (time.skip (String "-" ?x) "-") with (Ok x : result string time.ParseError).
  cbn [bind].
  rewrite parseStd_day by lia. cbn [bind fst snd append].
  reflexivity.
Qed.

Lemma build_fieldsOf t :
  props.civil t ->
  time.build (props.fieldsOf t) =
    Ok (time.mkTime (time.year t) (time.month t) (time.day t) (time.hour t)
                    (time.minute t) (time.second t) 0 0).
Proof.
  intros (Hy & Hm & Hd & Hh & Hmi & Hs). unfold time.build, props.fieldsOf.
  cbn [time.p_year time.p_month time.p_day time.p_hour time.p_min time.p_sec
       time.p_nsec time.p_utc time.p_zoneOffset].
  destruct (Z.ltb_spec (time.month t) 0); [lia|].
  destruct (Z.ltb_spec (time.day t) 0); [lia|].
  destruct (Z.ltb_spec (time.day t) 1); [lia|].
  destruct (Z.ltb_spec (time.daysIn (time.month t) (time.year t)) (time.day t)); [lia|].
  reflexivity.
Qed.

Lemma build_fieldsOf_offset t z :
  props.civil t -> z <> -1 ->
  time.build (time.set_zoneOffset (props.fieldsOf t) z) =
    Ok (time.mkTime (time.year t) (time.month t) (time.day t) (time.hour t)
                    (time.minute t) (time.second t) 0 z).
Proof.
  intros (Hy & Hm & Hd & Hh & Hmi & Hs) Hz.
  unfold time.build, props.fieldsOf, time.set_zoneOffset.
  cbn [time.p_year time.p_month time.p_day time.p_hour time.p_min time.p_sec
       time.p_nsec time.p_utc time.p_zoneOffset].
  destruct (Z.ltb_spec (time.month t) 0); [lia|].
  destruct (Z.ltb_spec (time.day t) 0); [lia|].
  destruct (Z.ltb_spec (time.day t) 1); [lia|].
  destruct (Z.ltb_spec (time.daysIn (time.month t) (time.year t)) (time.day t)); [lia|].
  cbn [orb].
  destruct (Z.eqb_spec z (-1)); [contradiction|]. reflexivity.
Qed.

(** The text of a time in UTC loses its [Z] and is read by the fourth
    layout of the driver. *)
Lemma columnTime_utc t :
  props.civil t -> time.offset t = 0 ->
  sqlite3.columnTime (time.Format time.RFC3339 t) = props.reread t.
Proof.
  intros Hc H0. rewrite Format_clockText, H0. unfold time.formatZone.
  change (0 =? 0) with true. cbv iota.
  unfold sqlite3.columnTime.
  assert (Htrim : TrimSuffix (props.clockText t ++ "Z") "Z" = props.clockText t).
  { pose proof (civil_day t Hc) as Hd'.
    destruct Hc as (Hy & Hm & Hd & Hh & Hmi & Hs).
    unfold props.clockText.
    rewrite appendInt_4, !appendInt_2 by lia. reflexivity. }
  rewrite Htrim.
  unfold sqlite3.SQLiteTimestampFormats.
  cbn [sqlite3.tryLayouts]. unfold time.ParseInLocation, time.Parse, time.parse.
  cbn [time.chunks time.suffix].
  rewrite <- (append_nil_r (props.clockText t)).
  rewrite !parseChunks_space by assumption. cbn [bind].
  rewrite !parseChunks_clockText by (assumption || reflexivity).
  cbn [time.parseChunks time.nextStd time.parseStd time.skip time.skip_loop bind
       String.length Nat.ltb Nat.leb orb fst snd].
  unfold time.parseOffset at 1. cbn [String.length Nat.ltb Nat.leb bind].
  rewrite build_fieldsOf by assumption.
  unfold props.reread, props.minutes. rewrite H0. reflexivity.
Qed.

Lemma zone_bounds off :
  Z.abs off < 90000 -> 0 <= Z.abs (Z.quot off 60) < 1500.
Proof.
  intros H. Z.to_euclidean_division_equations. lia.
Qed.

(** The text of a time in another zone is read by the second layout of
    the driver. *)
Lemma columnTime_offset t :
  props.civil t -> time.offset t <> 0 -> Z.abs (time.offset t) < 90000 ->
  sqlite3.columnTime (time.Format time.RFC3339 t) = props.reread t.
Proof.
  intros Hc H0 Hoff. rewrite Format_clockText. unfold time.formatZone.
  destruct (Z.eqb_spec (time.offset t) 0) as [E|_]; [contradiction|].
  unfold sqlite3.columnTime.
  assert (Htrim : TrimSuffix (props.clockText t ++ time.formatOffset (time.offset t)) "Z"
                  = props.clockText t ++ time.formatOffset (time.offset t)).
  { pose proof (civil_day t Hc) as Hd'. pose proof (zone_bounds _ Hoff) as Hz.
    destruct Hc as (Hy & Hm & Hd & Hh & Hmi & Hs).
    unfold props.clockText, time.formatOffset.
    rewrite appendInt_4, !appendInt_2 by dlia.
    unfold TrimSuffix, HasSuffix.
    destruct (Z.quot (time.offset t) 60 <? 0);
      cbn [append String.length Nat.sub Nat.leb drop String.eqb andb];
      rewrite utod_not_Z by dlia; reflexivity. }
  rewrite Htrim.
  unfold sqlite3.SQLiteTimestampFormats.
  cbn [sqlite3.tryLayouts]. unfold time.ParseInLocation, time.Parse, time.parse.
  cbn [time.chunks time.suffix].
  rewrite !parseChunks_space by assumption. cbn [bind].
  rewrite <- (append_nil_r (time.formatOffset (time.offset t))) at 1.
  rewrite parseChunks_clockText by (assumption || apply formatOffset_no_fraction).
  rewrite append_nil_r.
  cbn [time.parseChunks time.nextStd time.parseStd bind].
  change (time.skip ?x "") with (Ok x : result string time.ParseError). cbn [bind].
  rewrite <- (append_nil_r (time.formatOffset (time.offset t))) at 2.
  rewrite formatOffset_no_fraction. cbn [negb orb]. rewrite orb_true_r.
  cbn [orb bind fst snd].
  change (time.skip ?x "") with (Ok x : result string time.ParseError). cbn [bind].
  rewrite parseOffset_formatOffset by assumption. cbn [bind fst snd].
  change (time.skip ?x "") with (Ok x : result string time.ParseError). cbn [bind].
  rewrite build_fieldsOf_offset;
    [reflexivity | assumption | unfold props.minutes; lia].
Qed.

Lemma columnTime_Format t :
  props.civil t -> Z.abs (time.offset t) < 90000 ->
  sqlite3.columnTime (time.Format time.RFC3339 t) = props.reread t.
Proof.
  intros Hc Hoff. destruct (Z.eq_dec (time.offset t) 0).
  - now apply columnTime_utc.
  - now apply columnTime_offset.
Qed.

Lemma civil_reread t : props.civil t -> props.civil (props.reread t).
Proof. intros H. exact H. Qed.

Lemma minutes_bound off : Z.abs off < 90000 -> Z.abs (props.minutes off) < 90000.
Proof.
  intros H. unfold props.minutes. Z.to_euclidean_division_equations. lia.
Qed.

Lemma minutes_minutes off : props.minutes (props.minutes off) = props.minutes off.
Proof. unfold props.minutes. Z.to_euclidean_division_equations. lia. Qed.

Lemma reread_reread t : props.reread (props.reread t) = props.reread t.
Proof.
  unfold props.reread. cbn [time.year time.month time.day time.hour time.minute
                            time.second time.offset].
  now rewrite minutes_minutes.
Qed.

(** [Scan] gives back the text of a time the repository wrote, with the
    zone in whole minutes. *)
Lemma scanDatetime_Format t :
  props.civil t -> Z.abs (time.offset t) < 90000 ->
  sql.scanDatetime (time.Format time.RFC3339 t)
  = time.Format time.RFC3339 (props.reread t).
Proof.
  intros Hc Hoff. unfold sql.scanDatetime, sql.convertAssign.
  rewrite columnTime_Format by assumption.
  now apply Format_no_fraction.
Qed.

Lemma parseTime_Format what t :
  props.civil t -> Z.abs (time.offset t) < 90000 ->
  repository.parseTime what (sql.scanDatetime (time.Format time.RFC3339 t))
  = Ok (props.reread t).
Proof.
  intros Hc Ho. rewrite scanDatetime_Format by assumption.
  unfold repository.parseTime, time.Parse.
  rewrite parse_Format_RFC3339
    by (apply civil_reread; assumption) || (apply minutes_bound; assumption).
  rewrite reread_reread. reflexivity.
Qed.

(** What [createEvent] does on a request that passes: the outcome of
    [InsertEvent] on the new event under a fresh identifier and the time of
    the clock. *)
Lemma createEvent_created env db req db' ev :
  service.createEvent env db req = (db', service.JSON 201 (service.OneEvent ev)) ->
  models.IsValid req = None
  /\ ev = models.Event.mk (repository.uuid_New env)
            (models.CreateEventRequest.Title req)
            (models.CreateEventRequest.Description req)
            (fst (utils.ParseTimestamp (models.CreateEventRequest.StartTime req)))
            (fst (utils.ParseTimestamp (models.CreateEventRequest.EndTime req)))
            (repository.time_Now env)
  /\ db' = (db ++ [repository.row_of ev])%list
  /\ ~ In (uuid.String (models.Event.ID ev)) (props.ids db).
Proof.
  unfold service.createEvent.
  destruct (models.IsValid req) eqn:Hv; [discriminate|].
  unfold service.newEvent.
  destruct (utils.ParseTimestamp (models.CreateEventRequest.StartTime req)) as [s es].
  destruct (utils.ParseTimestamp (models.CreateEventRequest.EndTime req)) as [e ee].
  unfold repository.InsertEvent.
  change (uuid.UUID_eqb (models.Event.ID _) uuid.Nil) with true.
  cbv iota.
  change (time.IsZero (models.Event.CreatedAt _)) with true.
  cbv iota. cbn [models.Event.ID models.Event.Title models.Event.Description
                 models.Event.StartTime models.Event.EndTime].
  rewrite insert_result.
  destruct (negb _); [discriminate|].
  destruct (existsb _ db) eqn:E; [discriminate|].
  intros H. inversion H. subst. apply not_existsb_has_id in E.
  cbn [fst]. auto.
Qed.

(** A request that passes is created when the fresh identifier is not in
    the table. *)
Lemma createEvent_succeeds env db req :
  models.IsValid req = None ->
  ~ In (uuid.String (repository.uuid_New env)) (props.ids db) ->
  exists ev,
    service.createEvent env db req =
      ((db ++ [repository.row_of ev])%list, service.JSON 201 (service.OneEvent ev)).
Proof.
  intros Hv Hfresh. unfold service.createEvent. rewrite Hv.
  destruct (IsValid_parses req Hv) as (_ & _ & _ & _ & Hlen).
  unfold service.newEvent.
  destruct (utils.ParseTimestamp (models.CreateEventRequest.StartTime req)) as [s es].
  destruct (utils.ParseTimestamp (models.CreateEventRequest.EndTime req)) as [e ee].
  unfold repository.InsertEvent.
  change (uuid.UUID_eqb (models.Event.ID _) uuid.Nil) with true.
  cbv iota.
  change (time.IsZero (models.Event.CreatedAt _)) with true.
  cbv iota. cbn [models.Event.ID models.Event.Title models.Event.Description
                 models.Event.StartTime models.Event.EndTime].
  rewrite insert_result. cbn [repository.row_of sqlite.title sqlite.id models.Event.Title
                              models.Event.ID].
  pose proof (length_le_len (models.CreateEventRequest.Title req)) as Hle.
  destruct (Z.leb_spec (sqlite.length (models.CreateEventRequest.Title req)) 100);
    [|lia]. cbn [negb].
  apply not_existsb_has_id in Hfresh. rewrite Hfresh.
  eexists. reflexivity.
Qed.

(** C3.  A request that passes [IsValid] is created when the fresh
    identifier is not in the table, and the event fetched by the identifier of
    the created event has the title and the description of the request, and
    start and end at the parsed instants cut to the whole second: the table
    keeps seconds, so a fraction of a second of the request is gone, and
    without a fraction the instants are the parsed ones.  The clock is taken
    to read a calendar date in a year of four digits and the offsets of the
    request to be less than 25 hours. *)
Theorem create_then_get_whole_second :
  forall (env : repository.Env) (db : repository.Database)
         (req : models.CreateEventRequest.T) (s e : time.Time),
    models.IsValid req = None ->
    utils.ParseTimestamp (models.CreateEventRequest.StartTime req) = (s, None) ->
    utils.ParseTimestamp (models.CreateEventRequest.EndTime req) = (e, None) ->
    props.clock (repository.time_Now env) ->
    Z.abs (time.offset s) < 90000 ->
    Z.abs (time.offset e) < 90000 ->
    ~ In (uuid.String (repository.uuid_New env)) (props.ids db) ->
    exists (db' : repository.Database) (ev ev' : models.Event.T),
      service.createEvent env db req = (db', service.JSON 201 (service.OneEvent ev))
      /\ repository.GetEventByID db' (models.Event.ID ev) = Ok ev'
      /\ models.Event.ID ev' = models.Event.ID ev
      /\ models.Event.Title ev' = models.CreateEventRequest.Title req
      /\ models.Event.Description ev' = models.CreateEventRequest.Description req
      /\ models.Event.StartTime ev' = props.whole_second s
      /\ models.Event.EndTime ev' = props.whole_second e
      /\ (time.nsec s = 0 -> props.same_instant (models.Event.StartTime ev') s)
      /\ (time.nsec e = 0 -> props.same_instant (models.Event.EndTime ev') e).
Proof.
  intros env db req s e Hv Hs He (Hnow & Hnoff) Hso Heo Hfresh.
  destruct (createEvent_succeeds env db req Hv Hfresh) as (ev & Hc).
  exists (db ++ [repository.row_of ev])%list, ev.
  pose proof Hc as Hc'.
  apply createEvent_created in Hc'. destruct Hc' as (_ & Hev & _ & Hfresh').
  rewrite Hs, He in Hev. cbn [fst] in Hev.
  pose proof (ParseTimestamp_parsed _ _ Hs) as Ps.
  pose proof (ParseTimestamp_parsed _ _ He) as Pe.
  unfold repository.GetEventByID.
  rewrite find_last by (assumption || reflexivity).
  unfold repository.scan.
  cbn [repository.row_of sqlite.id sqlite.title sqlite.description
       sqlite.start_time sqlite.end_time sqlite.created_at].
  rewrite Parse_String. subst ev.
  cbn [models.Event.ID models.Event.Title models.Event.Description
       models.Event.StartTime models.Event.EndTime models.Event.CreatedAt].
  rewrite !parseTime_Format by (assumption || apply Ps || apply Pe).
  cbn [bind]. eexists. split; [exact Hc|]. split; [reflexivity|].
  cbn [models.Event.ID models.Event.Title models.Event.Description
       models.Event.StartTime models.Event.EndTime].
  rewrite !reread_parsed by assumption.
  repeat split; try reflexivity.
  - cbn. symmetry. assumption.
  - cbn. symmetry. assumption.
Qed.

Lemma create_then_get_whole_second_witness :
  exists (db' : repository.Database) (ev ev' : models.Event.T),
    service.createEvent examples.env1 [] examples.half
      = (db', service.JSON 201 (service.OneEvent ev))
    /\ repository.GetEventByID db' (models.Event.ID ev) = Ok ev'
    /\ models.Event.ID ev' = models.Event.ID ev
    /\ models.Event.Title ev' = "Team Meeting"
    /\ models.Event.Description ev' = Some "Quarterly planning session"
    /\ models.Event.StartTime ev'
       = props.whole_second (time.mkTime 2026 1 20 10 0 0 500000000 0)
    /\ models.Event.EndTime ev'
       = props.whole_second (time.mkTime 2026 1 20 11 0 0 0 0)
    /\ (time.nsec (time.mkTime 2026 1 20 10 0 0 500000000 0) = 0 ->
        props.same_instant (models.Event.StartTime ev')
                           (time.mkTime 2026 1 20 10 0 0 500000000 0))
    /\ (time.nsec (time.mkTime 2026 1 20 11 0 0 0 0) = 0 ->
        props.same_instant (models.Event.EndTime ev') (time.mkTime 2026 1 20 11 0 0 0 0)).
Proof.
  apply (create_then_get_whole_second examples.env1 [] examples.half);
    try (vm_compute; reflexivity).
  - unfold props.clock, props.civil. vm_compute. intuition discriminate.
  - intros [].
Defined.

(** The claim C3 as it was stated fails on a start with half a second: the
    request passes, is created and is fetched, and the start that comes back
    is half a second before the parsed start. *)
Lemma create_then_get_drops_fraction :
  exists (db' : repository.Database) (ev ev' : models.Event.T),
    models.IsValid examples.half = None
    /\ service.createEvent examples.env1 [] examples.half
       = (db', service.JSON 201 (service.OneEvent ev))
    /\ repository.GetEventByID db' (models.Event.ID ev) = Ok ev'
    /\ props.precedes
         (models.Event.StartTime ev')
         (fst (utils.ParseTimestamp (models.CreateEventRequest.StartTime examples.half)))
    /\ ~ props.same_instant
          (models.Event.StartTime ev')
          (fst (utils.ParseTimestamp (models.CreateEventRequest.StartTime examples.half))).
Proof.
  do 3 eexists. split; [vm_compute; reflexivity|].
  split; [vm_compute; reflexivity|].
  split; [vm_compute; reflexivity|].
  split.
  - right. vm_compute. split; reflexivity.
  - intros [_ H]. vm_compute in H. discriminate.
Qed.

(** ** The wire *)

Lemma MarshalJSON_text t b :
  time.MarshalJSON t = Ok b -> b = time.Format time.RFC3339Nano t.
Proof.
  unfold time.MarshalJSON.
  destruct (negb _); [discriminate|]. destruct (_ && _); [discriminate|].
  intros E. inversion E. reflexivity.
Qed.

Lemma marshalTime_text t v :
  json.marshalTime t = Ok v -> v = json.Str (time.Format time.RFC3339Nano t).
Proof.
  unfold json.marshalTime.
  destruct (time.MarshalJSON t) as [b|] eqn:M; cbn [bind]; [|discriminate].
  apply MarshalJSON_text in M. intros E. inversion E. now subst.
Qed.

(** What [json.marshalEvent] writes for an event: the identifier in its
    string form and every timestamp in [RFC3339Nano], the layout of
    [MarshalJSON], which keeps a fraction of a second; without a fraction that
    is the text of [RFC3339]. *)
Lemma marshal_event_fields (ev : models.Event.T) (v : json.Value) :
  service.marshal (service.OneEvent ev) = Ok v ->
  json.field "id" v = Some (json.Str (uuid.String (models.Event.ID ev)))
  /\ json.field "start_time" v
     = Some (json.Str (time.Format time.RFC3339Nano (models.Event.StartTime ev)))
  /\ json.field "end_time" v
     = Some (json.Str (time.Format time.RFC3339Nano (models.Event.EndTime ev)))
  /\ json.field "created_at" v
     = Some (json.Str (time.Format time.RFC3339Nano (models.Event.CreatedAt ev))).
Proof.
  cbn [service.marshal]. unfold json.marshalEvent.
  destruct (json.marshalTime (models.Event.StartTime ev)) as [st|] eqn:Hst;
    cbn [bind]; [|discriminate].
  destruct (json.marshalTime (models.Event.EndTime ev)) as [et|] eqn:Het;
    cbn [bind]; [|discriminate].
  destruct (json.marshalTime (models.Event.CreatedAt ev)) as [ct|] eqn:Hct;
    cbn [bind]; [|discriminate].
  apply marshalTime_text in Hst, Het, Hct. subst st et ct.
  intros E. inversion E. subst v. clear E.
  destruct (models.Event.Description ev);
    cbn [json.field json.lookup app String.eqb Ascii.eqb Bool.eqb];
    repeat split; reflexivity.
Qed.

(** C9.  The create response does not print its timestamps in the first
    accepted format.  [createEvent] sends the event it built, whose
    [created_at] is the reading of the clock, and [c.JSON] prints a time with
    its fraction of a second: for the request of the README, made when the
    clock is 123456789 nanoseconds into its second, [created_at] goes out as
    2026-01-15T14:30:00.123456789Z, and for a start with half a second
    [start_time] goes out as 2026-01-20T10:00:00.5Z.  The get-by-id response
    for the same identifier has them in the first accepted format, in
    seconds, as the README has both responses.  The identifier is in its
    string form in both. *)
Theorem create_response_keeps_the_fraction :
  (exists (db' : repository.Database) (ev : models.Event.T),
      service.createEvent examples.env1 [] examples.standup
        = (db', service.JSON 201 (service.OneEvent ev))
      /\ json.field "id"
           (service.body (service.send (service.JSON 201 (service.OneEvent ev))))
         = Some (json.Str (uuid.String (models.Event.ID ev)))
      /\ json.field "created_at"
           (service.body (service.send (service.JSON 201 (service.OneEvent ev))))
         = Some (json.Str "2026-01-15T14:30:00.123456789Z")
      /\ time.Format time.RFC3339 (models.Event.CreatedAt ev) = "2026-01-15T14:30:00Z"
      /\ json.field "created_at"
           (service.body (service.send
              (service.getEventByID db' (uuid.String (models.Event.ID ev)))))
         = Some (json.Str "2026-01-15T14:30:00Z"))
  /\ (exists (db' : repository.Database) (ev : models.Event.T),
         service.createEvent examples.env1 [] examples.half
           = (db', service.JSON 201 (service.OneEvent ev))
         /\ json.field "start_time"
              (service.body (service.send (service.JSON 201 (service.OneEvent ev))))
            = Some (json.Str "2026-01-20T10:00:00.5Z")
         /\ time.Format time.RFC3339 (models.Event.StartTime ev)
            = "2026-01-20T10:00:00Z"
         /\ json.field "start_time"
              (service.body (service.send
                 (service.getEventByID db' (uuid.String (models.Event.ID ev)))))
            = Some (json.Str "2026-01-20T10:00:00Z")).
Proof.
  split; do 2 eexists; (split; [vm_compute; reflexivity|]);
    repeat split; vm_compute; reflexivity.
Qed.

(** ** Listing *)

Lemma place_permutation r l : Permutation (r :: l) (sqlite.place r l).
Proof.
  induction l as [|x l IH]; cbn [sqlite.place]; [reflexivity|].
  destruct (String.leb _ _); [reflexivity|].
  rewrite perm_swap. now constructor.
Qed.

(** The listing query returns every row, once. *)
Lemma select_all_permutation (t : sqlite.Table) : Permutation t (sqlite.select_all t).
Proof.
  unfold sqlite.select_all.
  induction t as [|r t IH]; cbn [sqlite.order_by_start_time]; [constructor|].
  rewrite <- place_permutation. now constructor.
Qed.

Lemma place_sorted r l :
  Sorted props.text_le l -> Sorted props.text_le (sqlite.place r l).
Proof.
  induction l as [|x l IH]; intros Hs; cbn [sqlite.place].
  - repeat constructor.
  - destruct (String.leb (sqlite.start_time r) (sqlite.start_time x)) eqn:E.
    + constructor; [exact Hs | constructor; exact E].
    + inversion Hs as [|? ? Hl Hx]; subst.
      constructor; [apply IH; exact Hl|].
      assert (Hxr : props.text_le x r).
      { unfold props.text_le. destruct (String.leb_total (sqlite.start_time r)
                                    (sqlite.start_time x)); congruence. }
      destruct l as [|y l]; cbn [sqlite.place].
      * constructor. exact Hxr.
      * destruct (String.leb (sqlite.start_time r) (sqlite.start_time y));
          constructor; [exact Hxr|].
        inversion Hx; assumption.
Qed.

(** The rows come in the order of the texts of their [start_time]. *)
Lemma select_all_sorted (t : sqlite.Table) : Sorted props.text_le (sqlite.select_all t).
Proof.
  unfold sqlite.select_all.
  induction t as [|r t IH]; cbn [sqlite.order_by_start_time]; [constructor|].
  now apply place_sorted.
Qed.

(** The listing of an empty table is an empty array, not [null]. *)
Lemma listEvents_empty :
  service.listEvents [] = service.JSON 200 (service.Events (Some []))
  /\ service.send (service.listEvents []) = service.mkWire 200 (json.Arr []).
Proof. split; reflexivity. Qed.

(** [listEvents] never hands a [nil] slice to [c.JSON]. *)
Lemma listEvents_not_nil db code s :
  service.listEvents db = service.JSON code (service.Events s) -> s <> None.
Proof.
  unfold service.listEvents. destruct (repository.GetAllEvents db) as [[l|]|];
    intros E; inversion E; discriminate.
Qed.

(** C4.  Two events created through [createEvent], one starting at 10:00
    five hours east of UTC (05:00 UTC) and one starting at 09:00 UTC, are
    listed with the one of 09:00 UTC first, in either order of creation,
    although the other one starts four hours earlier: the rows are ordered by
    the text of [start_time], not by the instant. *)
Theorem listEvents_orders_by_text :
  (exists first second : models.Event.T,
      service.listEvents examples.east_then_standup
        = service.JSON 200 (service.Events (Some [first; second]))
      /\ models.Event.Title first = "Quick Standup"
      /\ models.Event.Title second = "Project Review"
      /\ props.precedes (models.Event.StartTime second) (models.Event.StartTime first))
  /\ (exists first second : models.Event.T,
         service.listEvents examples.standup_then_east
           = service.JSON 200 (service.Events (Some [first; second]))
         /\ models.Event.Title first = "Quick Standup"
         /\ models.Event.Title second = "Project Review"
         /\ props.precedes (models.Event.StartTime second)
                           (models.Event.StartTime first)).
Proof.
  split; do 2 eexists.
  - split; [vm_compute; reflexivity|]. repeat split. left. vm_compute. reflexivity.
  - split; [vm_compute; reflexivity|]. repeat split. left. vm_compute. reflexivity.
Qed.
